(** * pcdsdevices.slits: the [SlitPositioner] axis and the [Slits] composite

    A shallow embedding of [src/pcdsdevices/slits.py].

    - Python floats are IEEE-754 binary64 values; they are modelled by the
      axiom-free [spec_float] of the Standard Library, instantiated at
      precision 53 and maximal exponent 1024.  Aperture sizes and positions
      are floats, as the docstrings have them.
    - Exceptions are values of an error monad; calls into the control
      system (axis moves, stops, waits) are recorded in a call log.
    - The mutable attributes of a [Slits] instance are fields of a record
      that the methods thread through. *)

From Stdlib Require Import ZArith List String Bool Lia.
From Stdlib Require Import Floats.SpecFloat.
Import ListNotations.

Set Implicit Arguments.
Set Warnings "-register-all".

(** ** Exceptions and the error monad *)

Inductive exn :=
| ZeroDivisionError
| IndexError
| ValueError
| KeyboardInterrupt
| TimeoutError
| RuntimeError
| InterruptedError.

Inductive result (A : Type) :=
| Ok (a : A)
| Raise (e : exn).

Arguments Ok {A} a.
Arguments Raise {A} e.

Module Err.
Definition bind {A B} (r : result A) (k : A -> result B) : result B :=
  match r with
  | Ok a => k a
  | Raise e => Raise e
  end.

Fixpoint mapM {A B} (f : A -> result B) (l : list A) : result (list B) :=
  match l with
  | [] => Ok []
  | a :: l' => bind (f a) (fun b => bind (mapM f l') (fun bs => Ok (b :: bs)))
  end.
End Err.

Declare Scope err_scope.
Delimit Scope err_scope with err.
Notation "x <- c ;; k" := (Err.bind c (fun x => k))
  (at level 61, c at next level, right associativity) : err_scope.

(** ** Python floats *)

Module Float.
Definition prec : Z := 53.
Definition emax : Z := 1024.

Definition float := spec_float.

Definition of_Z (n : Z) : float := binary_normalize prec emax n 0 false.

Definition zero : float := S754_zero false.
Definition one : float := Eval cbv in of_Z 1.
Definition two : float := Eval cbv in of_Z 2.
Definition five : float := Eval cbv in of_Z 5.
Definition six : float := Eval cbv in of_Z 6.
Definition inf : float := S754_infinity false.
Definition nan : float := S754_nan.

(** The rich comparisons of [float]: each is the C comparison on doubles,
    false as soon as an operand is a NaN. *)
Definition lt (a b : float) : bool := SFltb a b.
Definition le (a b : float) : bool := SFleb a b.
Definition eq (a b : float) : bool := SFeqb a b.
Definition gt (a b : float) : bool :=
  match SFcompare a b with
  | Some Gt => true
  | _ => false
  end.
Definition ge (a b : float) : bool :=
  match SFcompare a b with
  | Some (Gt | Eq) => true
  | _ => false
  end.

Definition is_nan (a : float) : bool :=
  match a with
  | S754_nan => true
  | _ => false
  end.

Definition is_inf (a : float) : bool :=
  match a with
  | S754_infinity _ => true
  | _ => false
  end.

(** [a / b] on floats ([float_div]): a zero divisor of either sign raises,
    everything else is the IEEE quotient. *)
Definition truediv (a b : float) : result float :=
  if eq b zero then Raise ZeroDivisionError
  else Ok (SFdiv prec emax a b).

(** [bool(x)] of a float: [x != 0.0], so a NaN is true. *)
Definition truthy (a : float) : bool := negb (eq a zero).
End Float.

Definition float : Type := Float.float.

(** ** Builtins used by the properties *)

(** [min([a, b])]: the first item, replaced by a later one only when that
    one compares strictly smaller. *)
Definition py_min2 (a b : float) : float :=
  if Float.lt b a then b else a.

(** [all(l)]. *)
Definition py_all (l : list bool) : bool := forallb (fun b => b) l.

(** [range(lo, hi)]. *)
Definition py_range (lo hi : nat) : list nat := seq lo (hi - lo).

(** [t[idx]] on a 2-tuple, for a non-negative index. *)
Definition getitem (t : float * float) (idx : nat) : result float :=
  match idx with
  | 0 => Ok (fst t)
  | 1 => Ok (snd t)
  | _ => Raise IndexError
  end.

(** [np.argmin] on a 2-tuple of floats.  NumPy starts from item 0, returns
    at once when it is a NaN, and moves to item 1 when [not (c1 >= c0)]. *)
Definition np_argmin (t : float * float) : nat :=
  let (c0, c1) := t in
  if Float.is_nan c0 then 0
  else if negb (Float.ge c1 c0) then 1
  else 0.

(** ** Python values passed as a size or a timeout *)

Inductive pyval :=
| PyNone
| PyInt (n : Z)
| PyFloat (x : float)
| PyTuple (items : list pyval).

(** [bool(v)], as tested by [or]. *)
Definition truthy (v : pyval) : bool :=
  match v with
  | PyNone => false
  | PyInt n => negb (n =? 0)%Z
  | PyFloat x => Float.truthy x
  | PyTuple items =>
      match items with
      | [] => false
      | _ :: _ => true
      end
  end.

(** [isinstance(v, tuple)]. *)
Definition is_tuple (v : pyval) : bool :=
  match v with
  | PyTuple _ => true
  | _ => false
  end.

(** A pair of floats as the Python tuple it is. *)
Definition tuple_of (t : float * float) : pyval :=
  PyTuple [PyFloat (fst t); PyFloat (snd t)].

(** ** SlitPositioner *)

(** A callback attached to a readback signal.  The only one this module
    attaches is the bound method [Slits._aperture_changed]. *)
Inductive listener :=
| aperture_changed_cb.

Record SlitPositioner := {
  prefix : string;
  _dirlong : string;
  _dirshort : string;
  (** [position]: the value last reported by the readback. *)
  position : float;
  (** callbacks subscribed to [readback], oldest first *)
  readback_subs : list listener
}.

(** [slit_type[:4]]. *)
Definition slice_to_4 (s : string) : string := String.substring 0 4 s.

Module SlitPositioner_.
(** [SlitPositioner.__init__]; [pos] is what the readback reports. *)
Definition __init__ (prefix : string) (slit_type : string) (pos : float)
  : SlitPositioner :=
  {| prefix := prefix;
     _dirlong := slit_type;
     _dirshort := slice_to_4 slit_type;
     position := pos;
     readback_subs := [] |}.

(** [setpoint = FC(EpicsSignal, "{self.prefix}:{self._dirshort}_REQ")] *)
Definition setpoint_pv (self : SlitPositioner) : string :=
  prefix self ++ ":" ++ _dirshort self ++ "_REQ".

(** [readback = FC(EpicsSignalRO, "{self.prefix}:ACTUAL_{self._dirlong}")] *)
Definition readback_pv (self : SlitPositioner) : string :=
  prefix self ++ ":ACTUAL_" ++ _dirlong self.

(** [done = C(EpicsSignalRO, ":DMOV")] *)
Definition done_pv (self : SlitPositioner) : string :=
  prefix self ++ ":DMOV".

Definition with_readback_subs (self : SlitPositioner) (l : list listener)
  : SlitPositioner :=
  {| prefix := prefix self;
     _dirlong := _dirlong self;
     _dirshort := _dirshort self;
     position := position self;
     readback_subs := l |}.
End SlitPositioner_.

(** The four axis-kind tags. *)
Definition slit_types : list string :=
  ["XWIDTH"; "YWIDTH"; "XCENTER"; "YCENTER"]%string.

(** ** Slits *)

Definition callback : Type := string.

(** [SUB_STATE = 'sub_state_changed'], [_default_sub = SUB_STATE]. *)
Definition SUB_STATE : string := "sub_state_changed".
Definition _default_sub : string := SUB_STATE.

(** The child positioners a [Slits] method calls into. *)
Inductive child :=
| Xcenter
| Xwidth
| Ycenter
| Ywidth.

(** What happens at the readback signals, in order: a listener is
    subscribed, with the [run] argument of the call, or a signal runs a
    listener. *)
Inductive signal_event :=
| Subscribed (ax : child) (l : listener) (run : bool)
| Ran (l : listener).

Record Slits := {
  xcenter : SlitPositioner;
  xwidth : SlitPositioner;
  ycenter : SlitPositioner;
  ywidth : SlitPositioner;
  _has_subscribed : bool;
  nominal_aperture : float * float;
  (** the subscriptions held by the device: (event type, callback), oldest
      first *)
  _subs : list (string * callback);
  (** every callback invocation so far, oldest first *)
  called : list callback;
  (** the event types dispatched so far, latest first *)
  dispatched : list string;
  (** what happened at the readback signals so far, oldest first *)
  signal_log : list signal_event
}.

(** Status objects.  [MoveStatus] is what [positioner.move(position,
    wait=False, timeout=timeout)] hands back; [AndStatus l r] is [l & r]. *)
Inductive status :=
| MoveStatus (ax : child) (position : pyval) (timeout : pyval)
| AndStatus (left right : status).

(** The calls a method makes on its collaborators, in program order. *)
Inductive call :=
| Move (ax : child) (position : pyval) (wait : bool) (timeout : pyval)
| Stop (ax : child)
| AddCallback (st : status) (cb : callback)
| StatusWait (st : status).

(** What the collaborators do when called: a positioner's [move] may raise
    (a limit violation, a lost connection), and [status_wait] returns or
    raises (a timeout, a failed status, an interrupt from the keyboard). *)
Record world := {
  move_raises : child -> option exn;
  wait_raises : option exn
}.

(** Computations that log calls and may raise. *)
Module Eff.
Definition t (A : Type) : Type := list call * result A.

Definition ret {A} (a : A) : t A := ([], Ok a).

Definition raise {A} (e : exn) : t A := ([], Raise e).

Definition bind {A B} (m : t A) (k : A -> t B) : t B :=
  match m with
  | (l, Ok a) => let (l', r) := k a in (l ++ l', r)
  | (l, Raise e) => (l, Raise e)
  end.

Definition tell (c : call) : t unit := ([c], Ok tt).

(** [try: m except <the e with h e = Some _>: handler]. *)
Definition try_except {A} (m : t A) (h : exn -> option (t A)) : t A :=
  match m with
  | (l, Ok a) => (l, Ok a)
  | (l, Raise e) =>
      match h e with
      | Some m' => let (l', r) := m' in (l ++ l', r)
      | None => (l, Raise e)
      end
  end.

Definition calls {A} (m : t A) : list call := fst m.
Definition value {A} (m : t A) : result A := snd m.
End Eff.

Declare Scope eff_scope.
Delimit Scope eff_scope with eff.
Notation "x <- c ;; k" := (Eff.bind c (fun x => k))
  (at level 61, c at next level, right associativity) : eff_scope.
Notation "c ;; k" := (Eff.bind c (fun _ => k))
  (at level 61, right associativity) : eff_scope.

Module Positioner.
Local Open Scope eff_scope.

(** [positioner.move(position, wait=wait, timeout=timeout)]. *)
Definition move (W : world) (ax : child) (position : pyval) (wait : bool)
    (timeout : pyval) : Eff.t status :=
  Eff.tell (Move ax position wait timeout) ;;
  match move_raises W ax with
  | Some e => Eff.raise e
  | None => Eff.ret (MoveStatus ax position timeout)
  end.

(** [positioner.stop()]. *)
Definition stop (ax : child) : Eff.t unit := Eff.tell (Stop ax).
End Positioner.

(** [ophyd.status.wait(status)]. *)
Definition status_wait (W : world) (st : status) : Eff.t unit :=
  Eff.bind (Eff.tell (StatusWait st))
    (fun _ => match wait_raises W with
              | Some e => Eff.raise e
              | None => Eff.ret tt
              end).

(** [status.add_callback(cb)]. *)
Definition add_callback (st : status) (cb : callback) : Eff.t unit :=
  Eff.tell (AddCallback st cb).

Module Slits_.
(** [Slits.__init__(prefix, nominal_aperture=(5.0, 5.0))].  The children
    are the components [C(SlitPositioner, '', slit_type=...)]; [cur] is
    what the two width readbacks report. *)
Definition __init__ (prefix : string) (nominal : float * float)
    (cur : float * float) : Slits :=
  {| xcenter := SlitPositioner_.__init__ prefix "XCENTER" Float.zero;
     xwidth := SlitPositioner_.__init__ prefix "XWIDTH" (fst cur);
     ycenter := SlitPositioner_.__init__ prefix "YCENTER" Float.zero;
     ywidth := SlitPositioner_.__init__ prefix "YWIDTH" (snd cur);
     _has_subscribed := false;
     nominal_aperture := nominal;
     _subs := [];
     called := [];
     dispatched := [];
     signal_log := [] |}.

Definition default_nominal : float * float := (Float.five, Float.five).

(** [current_aperture]. *)
Definition current_aperture (self : Slits) : float * float :=
  (position (xwidth self), position (ywidth self)).

(** [position]. *)
Definition position (self : Slits) : float * float :=
  current_aperture self.

Local Open Scope err_scope.

(** [inserted]. *)
Definition inserted (self : Slits) : result bool :=
  flags <- Err.mapM
             (fun idx =>
                n <- getitem (nominal_aperture self) idx ;;
                c <- getitem (current_aperture self) idx ;;
                Ok (Float.gt n c))
             (py_range 0 2) ;;
  Ok (py_all flags).

(** [removed]. *)
Definition removed (self : Slits) : result bool :=
  b <- inserted self ;;
  Ok (negb b).

(** [transmission]. *)
Definition transmission (self : Slits) : result float :=
  let min_dim := np_argmin (current_aperture self) in
  c <- getitem (current_aperture self) min_dim ;;
  n <- getitem (nominal_aperture self) min_dim ;;
  q <- Float.truediv c n ;;
  Ok (py_min2 q Float.one).

Local Open Scope eff_scope.

(** [move(size, wait=False, moved_cb=None, timeout=None)]. *)
Definition move (self : Slits) (W : world) (size : pyval) (wait : bool)
    (moved_cb : option callback) (timeout : pyval) : Eff.t status :=
  wh <- match size with
        | PyTuple [width; height] => Eff.ret (width, height)
        | PyTuple _ => Eff.raise ValueError
        | _ => Eff.ret (size, size)
        end ;;
  let '(width, height) := wh in
  x_stat <- Positioner.move W Xwidth width false timeout ;;
  y_stat <- Positioner.move W Ywidth height false timeout ;;
  let status := AndStatus x_stat y_stat in
  match moved_cb with
  | Some cb => add_callback status cb
  | None => Eff.ret tt
  end ;;
  (if wait then
     Eff.try_except (status_wait W status)
       (fun e =>
          match e with
          | KeyboardInterrupt =>
              Some (Positioner.stop Xwidth ;;
                    Positioner.stop Ywidth ;;
                    Eff.raise e)
          | _ => None
          end)
   else Eff.ret tt) ;;
  Eff.ret status.

(** [remove(size=None, wait=False, timeout=None, **kwargs)]; the only
    keyword [move] has left for [kwargs] is [moved_cb]. *)
Definition remove (self : Slits) (W : world) (size : pyval) (wait : bool)
    (timeout : pyval) (kwargs : option callback) : Eff.t status :=
  let size := if truthy size then size
              else tuple_of (nominal_aperture self) in
  move self W size wait kwargs timeout.

(** [set(size)]. *)
Definition set (self : Slits) (W : world) (size : pyval) : Eff.t status :=
  move self W size false None PyNone.
Definition get_child (self : Slits) (ax : child) : SlitPositioner :=
  match ax with
  | Xcenter => xcenter self
  | Xwidth => xwidth self
  | Ycenter => ycenter self
  | Ywidth => ywidth self
  end.

Definition set_child (self : Slits) (ax : child) (p : SlitPositioner)
  : Slits :=
  {| xcenter := match ax with Xcenter => p | _ => xcenter self end;
     xwidth := match ax with Xwidth => p | _ => xwidth self end;
     ycenter := match ax with Ycenter => p | _ => ycenter self end;
     ywidth := match ax with Ywidth => p | _ => ywidth self end;
     _has_subscribed := _has_subscribed self;
     nominal_aperture := nominal_aperture self;
     _subs := _subs self;
     called := called self;
     dispatched := dispatched self;
     signal_log := signal_log self |}.

Definition set_has_subscribed (self : Slits) (b : bool) : Slits :=
  {| xcenter := xcenter self;
     xwidth := xwidth self;
     ycenter := ycenter self;
     ywidth := ywidth self;
     _has_subscribed := b;
     nominal_aperture := nominal_aperture self;
     _subs := _subs self;
     called := called self;
     dispatched := dispatched self;
     signal_log := signal_log self |}.

Definition set_subs (self : Slits) (l : list (string * callback)) : Slits :=
  {| xcenter := xcenter self;
     xwidth := xwidth self;
     ycenter := ycenter self;
     ywidth := ywidth self;
     _has_subscribed := _has_subscribed self;
     nominal_aperture := nominal_aperture self;
     _subs := l;
     called := called self;
     dispatched := dispatched self;
     signal_log := signal_log self |}.

Definition set_called (self : Slits) (l : list callback) : Slits :=
  {| xcenter := xcenter self;
     xwidth := xwidth self;
     ycenter := ycenter self;
     ywidth := ywidth self;
     _has_subscribed := _has_subscribed self;
     nominal_aperture := nominal_aperture self;
     _subs := _subs self;
     called := l;
     dispatched := dispatched self;
     signal_log := signal_log self |}.

Definition set_dispatched (self : Slits) (l : list string) : Slits :=
  {| xcenter := xcenter self;
     xwidth := xwidth self;
     ycenter := ycenter self;
     ywidth := ywidth self;
     _has_subscribed := _has_subscribed self;
     nominal_aperture := nominal_aperture self;
     _subs := _subs self;
     called := called self;
     dispatched := l;
     signal_log := signal_log self |}.

Definition set_signal_log (self : Slits) (l : list signal_event) : Slits :=
  {| xcenter := xcenter self;
     xwidth := xwidth self;
     ycenter := ycenter self;
     ywidth := ywidth self;
     _has_subscribed := _has_subscribed self;
     nominal_aperture := nominal_aperture self;
     _subs := _subs self;
     called := called self;
     dispatched := dispatched self;
     signal_log := l |}.

(** Modelled from the spec: the generic subscription mechanism the
    device inherits ([_run_subs] is not under src/).  Dispatching an
    event type keeps the event as the last one of its type and invokes the
    callbacks registered for that type, oldest first. *)
Definition _run_subs (self : Slits) (sub_type : string) : Slits :=
  let self := set_dispatched self (sub_type :: dispatched self) in
  set_called self
    (called self ++
     map snd (filter (fun s => String.eqb (fst s) sub_type) (_subs self))).

(** [_aperture_changed]: the keywords it pops only shape the arguments
    handed on; what it runs is the [SUB_STATE] subscriptions. *)
Definition _aperture_changed (self : Slits) : Slits :=
  _run_subs self SUB_STATE.

(** A signal runs a listener attached to it. *)
Definition notify (l : listener) (self : Slits) : Slits :=
  let self := set_signal_log self (signal_log self ++ [Ran l]) in
  match l with
  | aperture_changed_cb => _aperture_changed self
  end.

(** [self.<ax>.readback.subscribe(l, run=run)]: the listener is appended
    to the signal's subscriptions, and called once at once when [run]. *)
Definition readback_subscribe (ax : child) (l : listener) (run : bool)
    (self : Slits) : Slits :=
  let p := get_child self ax in
  let self' :=
    set_child self ax
      (SlitPositioner_.with_readback_subs p (readback_subs p ++ [l])) in
  let self' :=
    set_signal_log self' (signal_log self' ++ [Subscribed ax l run]) in
  if run then notify l self' else self'.

(** Modelled from the spec: [super().subscribe(cb, event_type, run)], the
    registration half of the generic subscription mechanism (not under
    src/).  A missing event type is the default one; with [run] the
    callback is run immediately on the last event of its type, when one
    was dispatched before. *)
Definition super_subscribe (self : Slits) (cb : callback)
    (event_type : option string) (run : bool) : Slits :=
  let event_type := match event_type with
                    | Some t => t
                    | None => _default_sub
                    end in
  let self' := set_subs self (_subs self ++ [(event_type, cb)]) in
  set_called self'
    (called self'
     ++ (if run && existsb (String.eqb event_type) (dispatched self')
         then [cb] else [])).

(** [subscribe(cb, event_type=None, run=True)]. *)
Definition subscribe (self : Slits) (cb : callback)
    (event_type : option string) (run : bool) : Slits :=
  let self :=
    if negb (_has_subscribed self) then
      let self := readback_subscribe Xwidth aperture_changed_cb false self in
      let self := readback_subscribe Ywidth aperture_changed_cb false self in
      set_has_subscribed self true
    else self in
  super_subscribe self cb event_type run.

(** The readback of child [ax] posts a new value: the signal calls every
    listener subscribed to it, oldest first. *)
Definition readback_changed (ax : child) (self : Slits) : Slits :=
  fold_left (fun s l => notify l s) (readback_subs (get_child self ax)) self.
End Slits_.

(** One call [subscribe(cb, event_type, run)]. *)
Record subscribe_call := {
  sc_cb : callback;
  sc_event_type : option string;
  sc_run : bool
}.

Definition do_subscribe (self : Slits) (c : subscribe_call) : Slits :=
  Slits_.subscribe self (sc_cb c) (sc_event_type c) (sc_run c).

(** A sequence of calls, in order. *)
Definition subscribe_all (self : Slits) (cs : list subscribe_call) : Slits :=
  fold_left do_subscribe cs self.

(** Whether a call registers its callback for [SUB_STATE]. *)
Definition on_state_event (c : subscribe_call) : bool :=
  match sc_event_type c with
  | None => true
  | Some t => String.eqb t SUB_STATE
  end.

(** The low-level listener is in place: the flag is set and each width
    readback holds [_aperture_changed] exactly once. *)
Definition attached (s : Slits) : Prop :=
  _has_subscribed s = true /\
  readback_subs (xwidth s) = [aperture_changed_cb] /\
  readback_subs (ywidth s) = [aperture_changed_cb].

(** What a call adds to the subscriptions of the device. *)
Definition entry_of (c : subscribe_call) : string * callback :=
  (match sc_event_type c with Some t => t | None => _default_sub end, sc_cb c).

(** The two subscriptions [subscribe] makes on the readbacks. *)
Definition attachment : list signal_event :=
  [Subscribed Xwidth aperture_changed_cb false;
   Subscribed Ywidth aperture_changed_cb false].

(** ** Resolution of statuses *)

Definition child_eqb (a b : child) : bool :=
  match a, b with
  | Xcenter, Xcenter | Xwidth, Xwidth
  | Ycenter, Ycenter | Ywidth, Ywidth => true
  | _, _ => false
  end.

(** How a motion ends. *)
Inductive outcome :=
| Success
| Failure (detail : string).

(** An axis reports the end of its motion. *)
Record event := {
  ev_axis : child;
  ev_outcome : outcome
}.

(** A status under observation: [None] while unresolved. *)
Inductive live :=
| LiveMove (ax : child) (st : option outcome)
| LiveAnd (st : option outcome) (left right : live).

Definition state (t : live) : option outcome :=
  match t with
  | LiveMove _ st => st
  | LiveAnd st _ _ => st
  end.

Fixpoint watch (s : status) : live :=
  match s with
  | MoveStatus ax _ _ => LiveMove ax None
  | AndStatus l r => LiveAnd None (watch l) (watch r)
  end.

(** Modelled from the spec: the done-flag of a move goes from false to true
    once (the status classes are not under src/), so a status is resolved
    once and later reports leave it as it is. *)
Definition settle (cur new : option outcome) : option outcome :=
  match cur with
  | None => new
  | Some _ => cur
  end.

(** Modelled from the spec: the joint future [x_stat & y_stat] (the status
    combinator is not under src/).  Its success requires both to succeed;
    if either fails it fails, carrying that failure's detail; otherwise it
    stays unresolved. *)
Definition and_states (l r : option outcome) : option outcome :=
  match l, r with
  | Some (Failure d), _ => Some (Failure d)
  | _, Some (Failure d) => Some (Failure d)
  | Some Success, Some Success => Some Success
  | _, _ => None
  end.

(** Modelled from the spec: one report reaches a status (the status classes
    are not under src/).  A move status takes the outcome its own axis
    reports; a joint status is recomputed from its two sides. *)
Fixpoint step (e : event) (t : live) : live :=
  match t with
  | LiveMove ax st =>
      LiveMove ax
        (if child_eqb ax (ev_axis e) then settle st (Some (ev_outcome e))
         else st)
  | LiveAnd st l r =>
      let l' := step e l in
      let r' := step e r in
      LiveAnd (settle st (and_states (state l') (state r'))) l' r'
  end.

(** The reports [tr] reach a status under observation, oldest first. *)
Definition run (tr : list event) (t : live) : live :=
  fold_left (fun t e => step e t) tr t.

(** The state of status [s] after the reports [tr]. *)
Definition after (tr : list event) (s : status) : option outcome :=
  state (run tr (watch s)).

(** Whether a state is a failure. *)
Definition is_failure (o : option outcome) : bool :=
  match o with
  | Some (Failure _) => true
  | _ => false
  end.

(** The detail of the first failure reported by one of [axes]. *)
Fixpoint first_failure (axes : list child) (tr : list event)
  : option string :=
  match tr with
  | [] => None
  | e :: tr' =>
      match ev_outcome e with
      | Failure d =>
          if existsb (child_eqb (ev_axis e)) axes then Some d
          else first_failure axes tr'
      | Success => first_failure axes tr'
      end
  end.


(** ** Sample devices and worlds *)

Definition calm : world :=
  {| move_raises := fun _ => None; wait_raises := None |}.

Definition interrupted : world :=
  {| move_raises := fun _ => None; wait_raises := Some KeyboardInterrupt |}.

Definition slits0 : Slits :=
  Slits_.__init__ "MFX:DG2" Slits_.default_nominal (Float.two, Float.two).

(** [move(size)] asks for width [w] and height [h]: [size] is the pair, or
    a value that is not a tuple and stands for both. *)
Definition requests (size w h : pyval) : Prop :=
  size = PyTuple [w; h] \/ (is_tuple size = false /\ w = size /\ h = size).

(** The axes whose statuses [move] joins. *)
Definition width_axes : list child := [Xwidth; Ywidth].

(** [x] is not a NaN and carries the sign bit [s]. *)
Definition signed_nonnan (s : bool) (x : spec_float) : Prop :=
  match x with
  | S754_zero s' | S754_infinity s' | S754_finite s' _ _ => s' = s
  | S754_nan => False
  end.

(** ** Writes to process variables *)

(** One [signal.put(value, wait=...)]; [put_wait] is [None] when the call
    leaves [wait] to its default. *)
Record put := {
  put_pv : string;
  put_value : pyval;
  put_wait : option bool
}.

(** [SlitPositioner._setup_move(position)]: the debug log aside, one
    [self.setpoint.put(position, wait=False)]. *)
Definition _setup_move (self : SlitPositioner) (position : pyval) : list put :=
  [ {| put_pv := SlitPositioner_.setpoint_pv self;
       put_value := position;
       put_wait := Some false |} ].

(** The signals a [Slits] device declares beside its four positioners, and
    the three commands that write to them.  [pre] is the prefix of the
    device. *)
Module SlitsCommands.
(** [blocked = C(EpicsSignalRO, ":BLOCKED")] *)
Definition blocked_pv (pre : string) : string := pre ++ ":BLOCKED".

(** [open_cmd = C(EpicsSignal, ":OPEN")] *)
Definition open_cmd_pv (pre : string) : string := pre ++ ":OPEN".

(** [close_cmd = C(EpicsSignal, ":CLOSE")] *)
Definition close_cmd_pv (pre : string) : string := pre ++ ":CLOSE".

(** [block_cmd = C(EpicsSignal, ":BLOCK")] *)
Definition block_cmd_pv (pre : string) : string := pre ++ ":BLOCK".

(** [open()]: [self.open_cmd.put(1)]. *)
Definition open (pre : string) : list put :=
  [ {| put_pv := open_cmd_pv pre; put_value := PyInt 1; put_wait := None |} ].

(** [close()]: [self.close_cmd.put(1)]. *)
Definition close (pre : string) : list put :=
  [ {| put_pv := close_cmd_pv pre; put_value := PyInt 1; put_wait := None |} ].

(** [block()]: [self.block_cmd.put(1)]. *)
Definition block (pre : string) : list put :=
  [ {| put_pv := block_cmd_pv pre; put_value := PyInt 1; put_wait := None |} ].
End SlitsCommands.

(** Every address a [Slits] device with prefix [pre] talks to, except the
    done flags: the setpoints and readbacks of its four positioners, then
    its own four signals. *)
Definition device_addresses (self : Slits) (pre : string) : list string :=
  map SlitPositioner_.setpoint_pv
    [xcenter self; xwidth self; ycenter self; ywidth self]
  ++ map SlitPositioner_.readback_pv
       [xcenter self; xwidth self; ycenter self; ywidth self]
  ++ [SlitsCommands.blocked_pv pre; SlitsCommands.open_cmd_pv pre;
      SlitsCommands.close_cmd_pv pre; SlitsCommands.block_cmd_pv pre].

(** ** Staging *)

(** The signals [stage] reads and uses as keys. *)
Inductive signal :=
| Setpoint (ax : child)
| Readback (ax : child).

Definition signal_eqb (a b : signal) : bool :=
  match a, b with
  | Setpoint x, Setpoint y => child_eqb x y
  | Readback x, Readback y => child_eqb x y
  | _, _ => false
  end.

(** [_original_vals]: a dict from signals to saved values, in insertion
    order. *)
Definition original_vals : Type := list (signal * float).

(** [d[key]], [None] for a missing key. *)
Fixpoint dict_get (key : signal) (d : original_vals) : option float :=
  match d with
  | [] => None
  | (k, v) :: d' => if signal_eqb k key then Some v else dict_get key d'
  end.

(** [d[key] = v]: an existing key keeps its place and takes the new value,
    a new key goes last. *)
Fixpoint dict_set (key : signal) (v : float) (d : original_vals)
  : original_vals :=
  match d with
  | [] => [(key, v)]
  | (k, v') :: d' =>
      if signal_eqb k key then (k, v) :: d'
      else (k, v') :: dict_set key v d'
  end.

(** [positioner.readback.value]: the value the readback holds, which is what
    [position] follows. *)
Definition readback_value (p : SlitPositioner) : float := position p.

(** [Slits.stage]: the two assignments to [_original_vals]; the dict is then
    left to [super().stage()]. *)
Definition stage (self : Slits) (_original_vals : original_vals)
  : original_vals :=
  let _original_vals :=
    dict_set (Setpoint Xwidth) (readback_value (xwidth self)) _original_vals in
  let _original_vals :=
    dict_set (Setpoint Ywidth) (readback_value (ywidth self)) _original_vals in
  _original_vals.

(** ** Keyword arguments of [_aperture_changed] *)

(** The values a signal passes by keyword when it runs a callback. *)
Inductive kwval :=
| KwStr (s : string)
| KwFloat (x : float)
| KwReadback (ax : child)
| KwSelf.

(** A [**kwargs] dict, in insertion order. *)
Definition kwargs : Type := list (string * kwval).

(** [kwargs[key]], [None] for a missing key. *)
Fixpoint kw_get (key : string) (kw : kwargs) : option kwval :=
  match kw with
  | [] => None
  | (k, v) :: kw' => if String.eqb k key then Some v else kw_get key kw'
  end.

(** [kwargs.pop(key, None)], for its effect on the dict. *)
Definition kw_pop (key : string) (kw : kwargs) : kwargs :=
  filter (fun kv => negb (String.eqb (fst kv) key)) kw.

(** A call [f(k1=v1, ..., **kw)]: a key of [kw] that repeats an explicit
    keyword is a TypeError (multiple values for one keyword argument);
    otherwise the callee receives the explicit keywords, then [kw]. *)
Inductive kw_error :=
| MultipleValues (key : string).

Definition call_with_keywords (explicit kw : kwargs) : kw_error + kwargs :=
  match find (fun kv => existsb (String.eqb (fst kv)) (map fst explicit)) kw with
  | Some kv => inl (MultipleValues (fst kv))
  | None => inr (explicit ++ kw)
  end.

(** [_aperture_changed], for the keywords it hands to [_run_subs]: the
    positional arguments are dropped, [sub_type] and [obj] are popped, then set afresh. *)
Definition _aperture_changed_keywords (kw : kwargs) : kw_error + kwargs :=
  let kw := kw_pop "sub_type" kw in
  let kw := kw_pop "obj" kw in
  call_with_keywords [("sub_type"%string, KwStr SUB_STATE);
                      ("obj"%string, KwSelf)] kw.

(** ** More sample worlds *)

Definition xwidth_out_of_limits : world :=
  {| move_raises := fun ax => match ax with
                              | Xwidth => Some ValueError
                              | _ => None
                              end;
     wait_raises := None |}.

Definition ywidth_out_of_limits : world :=
  {| move_raises := fun ax => match ax with
                              | Ywidth => Some ValueError
                              | _ => None
                              end;
     wait_raises := None |}.

Definition timed_out : world :=
  {| move_raises := fun _ => None; wait_raises := Some TimeoutError |}.

(** ** What a log of calls contains *)

Definition is_stop (c : call) : bool :=
  match c with
  | Stop _ => true
  | _ => false
  end.

Definition is_wait (c : call) : bool :=
  match c with
  | StatusWait _ => true
  | _ => false
  end.

Definition is_add_callback (c : call) : bool :=
  match c with
  | AddCallback _ _ => true
  | _ => false
  end.

(** Splits any call of [move] into the cases of its size, of what the two
    axis moves and the wait do, and of the optional arguments. *)
Ltac move_cases W size cb wait :=
  unfold Slits_.move, Positioner.move, status_wait;
  destruct size as [| | |[|? [|? [|? ?]]]]; cbn;
  try (destruct (move_raises W Xwidth); cbn);
  try (destruct (move_raises W Ywidth); cbn);
  try (destruct cb; cbn);
  try (destruct wait; cbn);
  try (destruct (wait_raises W) as [[]|]; cbn).

(** Unfolds a call of [move] whose size asks for [w] and [h] (hypothesis
    [Hreq : requests size w h]), down to the calls on the collaborators. *)
Ltac unfold_move Hreq :=
  let Hs := fresh "Hs" in
  destruct Hreq as [->|(Hs & -> & ->)];
  [|match type of Hs with
    | is_tuple ?size = false => destruct size; try discriminate Hs
    end];
  unfold Slits_.move, Positioner.move, status_wait; cbn.

(** * Properties *)

(** ** The scenarios of the specification *)

Example transmission_nominal5_current2 :
  Slits_.transmission
    (Slits_.__init__ "MFX:DG2" Slits_.default_nominal (Float.two, Float.two))
  = Ok (S754_finite false 7205759403792794 (-54)).
Proof. reflexivity. Qed.

Example transmission_current6_capped :
  let s := Slits_.__init__ "MFX:DG2" Slits_.default_nominal
             (Float.six, Float.six) in
  Slits_.transmission s = Ok Float.one /\
  Slits_.inserted s = Ok false /\ Slits_.removed s = Ok true.
Proof. repeat split. Qed.

Example inserted_nominal5_current2 :
  Slits_.inserted
    (Slits_.__init__ "MFX:DG2" Slits_.default_nominal (Float.two, Float.two))
  = Ok true.
Proof. reflexivity. Qed.

Example move_scalar_calls :
  Slits_.move slits0 calm (PyFloat Float.five) false None PyNone
  = ([Move Xwidth (PyFloat Float.five) false PyNone;
      Move Ywidth (PyFloat Float.five) false PyNone],
     Ok (AndStatus (MoveStatus Xwidth (PyFloat Float.five) PyNone)
                   (MoveStatus Ywidth (PyFloat Float.five) PyNone))).
Proof. reflexivity. Qed.

Example move_interrupted_calls :
  let js := AndStatus (MoveStatus Xwidth (PyFloat Float.one) PyNone)
                      (MoveStatus Ywidth (PyFloat Float.two) PyNone) in
  Slits_.move slits0 interrupted
    (PyTuple [PyFloat Float.one; PyFloat Float.two]) true None PyNone
  = ([Move Xwidth (PyFloat Float.one) false PyNone;
      Move Ywidth (PyFloat Float.two) false PyNone;
      StatusWait js; Stop Xwidth; Stop Ywidth],
     Raise KeyboardInterrupt).
Proof. reflexivity. Qed.

Example subscribe_twice_attaches_once :
  let s := subscribe_all slits0
             [ {| sc_cb := "cb1"%string; sc_event_type := None; sc_run := false |};
               {| sc_cb := "cb2"%string; sc_event_type := None; sc_run := false |} ] in
  readback_subs (xwidth s) = [aperture_changed_cb] /\
  readback_subs (ywidth s) = [aperture_changed_cb] /\
  called s = [] /\
  called (Slits_.readback_changed Xwidth s) = ["cb1"; "cb2"]%string.
Proof. repeat split. Qed.

(** ** Facts about binary64 arithmetic *)

Lemma SFcompare_antisym (x y : spec_float) :
  SFcompare y x = option_map CompOpp (SFcompare x y).
Proof.
  destruct x as [sx|sx| |sx mx ex], y as [sy|sy| |sy my ey]; cbn;
    try reflexivity;
    try (destruct sx; reflexivity); try (destruct sy; reflexivity);
    try (destruct sx, sy; reflexivity).
  f_equal.
  assert (Hm : Pos.compare_cont Eq my mx = CompOpp (Pos.compare_cont Eq mx my))
    by (symmetry; apply (Pos.compare_cont_antisym mx my Eq)).
  rewrite (Z.compare_antisym ey ex), Hm.
  destruct sx, sy, (ey ?= ex)%Z; cbn; try reflexivity;
    destruct (Pos.compare_cont Eq mx my); reflexivity.
Qed.

Section Rounding.
Variables prec emax : Z.

Lemma shr_1_nonneg mrs : (0 <= shr_m mrs)%Z -> (0 <= shr_m (shr_1 mrs))%Z.
Proof.
  destruct mrs as [m r s]; cbn.
  destruct m as [|p|p]; cbn; intros H; try lia.
  destruct p; cbn; lia.
Qed.

Lemma iter_pos_invariant {A} (P : A -> Prop) (f : A -> A) :
  (forall a, P a -> P (f a)) ->
  forall n a, P a -> P (iter_pos f n a).
Proof.
  intros Hf; induction n as [n IH|n IH|]; intros a Ha; cbn; auto.
Qed.

Lemma shr_nonneg mrs e n :
  (0 <= shr_m mrs)%Z -> (0 <= shr_m (fst (shr mrs e n)))%Z.
Proof.
  intros H; destruct n; cbn; auto.
  apply iter_pos_invariant with (P := fun r => (0 <= shr_m r)%Z); auto.
  apply shr_1_nonneg.
Qed.

Lemma shr_record_of_loc_m m l : shr_m (shr_record_of_loc m l) = m.
Proof. destruct l as [|[]]; reflexivity. Qed.

Lemma shr_fexp_nonneg m e l :
  (0 <= m)%Z -> (0 <= shr_m (fst (shr_fexp prec emax m e l)))%Z.
Proof.
  intros H; unfold shr_fexp. apply shr_nonneg.
  now rewrite shr_record_of_loc_m.
Qed.

Lemma round_nearest_even_nonneg m l :
  (0 <= m)%Z -> (0 <= round_nearest_even m l)%Z.
Proof.
  intros H; destruct l as [|[]]; cbn; try lia.
  destruct (Z.even m); lia.
Qed.

Lemma binary_round_aux_sign s m e l :
  (0 <= m)%Z -> signed_nonnan s (binary_round_aux prec emax s m e l).
Proof.
  intros H; unfold binary_round_aux.
  pose proof (@shr_fexp_nonneg m e l H) as H1.
  destruct (shr_fexp prec emax m e l) as [mrs' e']; cbn [fst] in H1.
  pose proof (@round_nearest_even_nonneg _ (loc_of_shr_record mrs') H1) as H2.
  pose proof (@shr_fexp_nonneg _ e' loc_Exact H2) as H3.
  destruct (shr_fexp prec emax _ e' loc_Exact) as [mrs'' e'']; cbn [fst] in H3.
  destruct (shr_m mrs'') as [|p|p]; cbn; try reflexivity; try lia.
  destruct (e'' <=? emax - prec)%Z; reflexivity.
Qed.

Lemma SFdiv_core_binary_nonneg mx ex my ey :
  (0 <= fst (fst (SFdiv_core_binary prec emax (Zpos mx) ex (Zpos my) ey)))%Z.
Proof.
  unfold SFdiv_core_binary.
  set (s := (ex - ey - _)%Z).
  set (m' := match s with Zpos _ => Z.shiftl (Zpos mx) s | Z0 => Zpos mx | Zneg _ => Z0 end).
  assert (Hm : (0 <= m')%Z).
  { subst m'; destruct s; try lia. apply Z.shiftl_nonneg; lia. }
  pose proof (Z.div_pos m' (Zpos my) Hm ltac:(lia)) as Hq.
  unfold Z.div in Hq.
  destruct (Z.div_eucl m' (Zpos my)) as [q r]; cbn in *. exact Hq.
Qed.

Lemma SFdiv_finite_sign sx mx ex sy my ey :
  signed_nonnan (xorb sx sy)
    (SFdiv prec emax (S754_finite sx mx ex) (S754_finite sy my ey)).
Proof.
  cbn [SFdiv].
  pose proof (SFdiv_core_binary_nonneg mx ex my ey) as H.
  destruct (SFdiv_core_binary prec emax (Zpos mx) ex (Zpos my) ey) as [[mz ez] lz].
  cbn in H. now apply binary_round_aux_sign.
Qed.
End Rounding.

Lemma gt_lt (a b : float) : Float.gt a b = Float.lt b a.
Proof.
  unfold Float.gt, Float.lt, SFltb.
  rewrite (SFcompare_antisym a b).
  destruct (SFcompare a b) as [[]|]; reflexivity.
Qed.

Lemma ge_le (a b : float) : Float.ge a b = Float.le b a.
Proof.
  unfold Float.ge, Float.le, SFleb.
  rewrite (SFcompare_antisym a b).
  destruct (SFcompare a b) as [[]|]; reflexivity.
Qed.

Lemma positive_shape (x : float) :
  Float.lt Float.zero x = true ->
  x = Float.inf \/ exists m e, x = S754_finite false m e.
Proof.
  destruct x as [s|[]| |[] m e]; cbn; try discriminate; intros _.
  - now left.
  - right; now exists m, e.
Qed.

Lemma positive_not_zero (x : float) :
  Float.lt Float.zero x = true -> Float.eq x Float.zero = false.
Proof.
  intros H; destruct (positive_shape x H) as [->|(m & e & ->)]; reflexivity.
Qed.

Lemma truediv_positive (c n : float) :
  Float.lt Float.zero c = true ->
  Float.lt Float.zero n = true ->
  Float.is_inf c && Float.is_inf n = false ->
  Float.truediv c n = Ok (SFdiv Float.prec Float.emax c n) /\
  signed_nonnan false (SFdiv Float.prec Float.emax c n).
Proof.
  intros Hc Hn Hinf; unfold Float.truediv.
  rewrite (positive_not_zero n Hn); split; [reflexivity|].
  destruct (positive_shape c Hc) as [->|(mc & ec & ->)],
           (positive_shape n Hn) as [->|(mn & en & ->)];
    try discriminate; try reflexivity.
  apply (SFdiv_finite_sign Float.prec Float.emax false mc ec false mn en).
Qed.

Lemma nonneg_of_sign (q : float) :
  signed_nonnan false q -> Float.le Float.zero q = true.
Proof. destruct q as [s|s| |s m e]; cbn; intros H; now subst. Qed.

Lemma SFcompare_defined (x y : spec_float) :
  x <> S754_nan -> y <> S754_nan -> SFcompare x y <> None.
Proof.
  destruct x as [sx|sx| |sx mx ex], y as [sy|sy| |sy my ey];
    cbn [SFcompare]; congruence.
Qed.

Lemma signed_nonnan_not_nan (s : bool) (q : float) :
  signed_nonnan s q -> q <> S754_nan.
Proof. destruct q; cbn [signed_nonnan]; intros H; congruence || contradiction. Qed.

(** Below a non-NaN [q], [min([q, 1.0])] is the smaller of the two. *)
Lemma py_min2_one (q : float) :
  signed_nonnan false q ->
  py_min2 q Float.one = (if Float.le q Float.one then q else Float.one) /\
  Float.le Float.zero (py_min2 q Float.one) = true /\
  Float.le (py_min2 q Float.one) Float.one = true.
Proof.
  intros Hq.
  pose proof (nonneg_of_sign q Hq) as H0.
  assert (H1 : Float.le Float.zero Float.one = true) by reflexivity.
  assert (H2 : Float.le Float.one Float.one = true) by reflexivity.
  assert (Hdef : SFcompare q Float.one <> None).
  { apply SFcompare_defined; [now apply signed_nonnan_not_nan with false|].
    discriminate. }
  unfold py_min2, Float.lt, SFltb.
  rewrite (SFcompare_antisym q Float.one).
  destruct (SFcompare q Float.one) as [[]|] eqn:E;
    cbv [option_map CompOpp]; unfold Float.le at 1, SFleb at 1; rewrite ?E;
    repeat split; auto; try congruence;
    unfold Float.le, SFleb; now rewrite E.
Qed.

(** [np.argmin] picks the smaller current component, the first on a tie. *)
Lemma np_argmin_smaller (cw ch : float) :
  Float.is_nan cw = false ->
  np_argmin (cw, ch) = if Float.le cw ch then 0 else 1.
Proof.
  intros H; cbn; rewrite H, ge_le.
  now destruct (Float.le cw ch).
Qed.

Lemma positive_not_nan (x : float) :
  Float.lt Float.zero x = true -> Float.is_nan x = false.
Proof.
  intros H; destruct (positive_shape x H) as [->|(m & e & ->)]; reflexivity.
Qed.

(** ** Transmission *)

(** C1 (as amended).  When all components of the current and the nominal
    aperture are greater than zero, and the current and nominal values on
    the smaller current dimension are not both infinite, [transmission]
    returns [min(C[i] / N[i], 1.0)], where [i] is the index of the smaller
    component of the current aperture (the first on a tie), and that value
    lies in [[0.0, 1.0]], also when [C[i] > N[i]]. *)
Theorem transmission_min_ratio_in_unit_interval
    (self : Slits) (cw ch nw nh : float) :
  Slits_.current_aperture self = (cw, ch) ->
  nominal_aperture self = (nw, nh) ->
  Float.lt Float.zero cw = true -> Float.lt Float.zero ch = true ->
  Float.lt Float.zero nw = true -> Float.lt Float.zero nh = true ->
  let c := if Float.le cw ch then cw else ch in
  let n := if Float.le cw ch then nw else nh in
  Float.is_inf c && Float.is_inf n = false ->
  let q := SFdiv Float.prec Float.emax c n in
  exists r,
    Slits_.transmission self = Ok r /\
    r = (if Float.le q Float.one then q else Float.one) /\
    Float.le Float.zero r = true /\ Float.le r Float.one = true.
Proof.
  intros HC HN Hcw Hch Hnw Hnh c n Hinf q.
  assert (Hc : Float.lt Float.zero c = true)
    by (subst c; now destruct (Float.le cw ch)).
  assert (Hn : Float.lt Float.zero n = true)
    by (subst n; now destruct (Float.le cw ch)).
  destruct (truediv_positive c n Hc Hn Hinf) as [Hdiv Hsign].
  destruct (py_min2_one _ Hsign) as (Hmin & Hlo & Hhi).
  exists (py_min2 q Float.one); repeat split; auto.
  unfold Slits_.transmission.
  rewrite HC, HN, (np_argmin_smaller cw ch (positive_not_nan cw Hcw)).
  subst c n; destruct (Float.le cw ch); cbn [getitem fst snd Err.bind];
    rewrite Hdiv; reflexivity.
Qed.

Lemma transmission_min_ratio_in_unit_interval_witness :
  exists r,
    Slits_.transmission
      (Slits_.__init__ "MFX:DG2" (Float.five, Float.five)
         (Float.six, Float.two)) = Ok r /\
    r = S754_finite false 7205759403792794 (-54) /\
    Float.le Float.zero r = true /\ Float.le r Float.one = true.
Proof.
  apply (@transmission_min_ratio_in_unit_interval
           (Slits_.__init__ "MFX:DG2" (Float.five, Float.five)
              (Float.six, Float.two))
           Float.six Float.two Float.five Float.five);
    reflexivity.
Defined.

(** C1 as stated fails on infinite apertures: every component is greater
    than zero, yet the quotient of two infinities is a NaN, [min] keeps it,
    and a NaN is not in [[0.0, 1.0]]. *)
Lemma transmission_of_infinite_apertures_is_nan :
  let self := Slits_.__init__ "MFX:DG2" (Float.inf, Float.inf)
                (Float.inf, Float.inf) in
  Float.lt Float.zero Float.inf = true /\
  Slits_.transmission self = Ok Float.nan /\
  ~ (Float.le Float.zero Float.nan = true /\
     Float.le Float.nan Float.one = true).
Proof.
  repeat split. intros [H _]; discriminate H.
Qed.

(** C10.  The division is unguarded: when the nominal component on the
    dimension picked by [np.argmin] of the current aperture is zero (of
    either sign), reading [transmission] raises [ZeroDivisionError]. *)
Theorem transmission_zero_nominal_raises (self : Slits) (n : float) :
  getitem (nominal_aperture self)
    (np_argmin (Slits_.current_aperture self)) = Ok n ->
  Float.eq n Float.zero = true ->
  Slits_.transmission self = Raise ZeroDivisionError.
Proof.
  intros Hn Hz; unfold Slits_.transmission.
  rewrite Hn.
  destruct (getitem (Slits_.current_aperture self) _) as [c|e] eqn:Hc.
  - cbn; unfold Float.truediv; now rewrite Hz.
  - exfalso. revert Hn Hc.
    destruct (np_argmin _) as [|[|k]]; cbn; discriminate.
Qed.

Lemma transmission_zero_nominal_raises_witness :
  Slits_.transmission
    (Slits_.__init__ "MFX:DG2" (Float.zero, Float.five)
       (Float.one, Float.two)) = Raise ZeroDivisionError.
Proof.
  apply (@transmission_zero_nominal_raises
           (Slits_.__init__ "MFX:DG2" (Float.zero, Float.five)
              (Float.one, Float.two)) Float.zero);
    reflexivity.
Defined.

(** ** Insertion state *)

(** C2.  With nominal aperture [(nw, nh)] and current aperture [(cw, ch)],
    [inserted] is true exactly when [cw < nw] and [ch < nh], and [removed]
    is its negation.  Nothing is required of the signs. *)
Theorem inserted_iff_both_strictly_smaller
    (self : Slits) (cw ch nw nh : float) :
  Slits_.current_aperture self = (cw, ch) ->
  nominal_aperture self = (nw, nh) ->
  exists b,
    Slits_.inserted self = Ok b /\
    (b = true <-> Float.lt cw nw = true /\ Float.lt ch nh = true) /\
    Slits_.removed self = Ok (negb b).
Proof.
  intros HC HN.
  exists (Float.lt cw nw && Float.lt ch nh).
  assert (Hins : Slits_.inserted self = Ok (Float.lt cw nw && Float.lt ch nh)).
  { unfold Slits_.inserted; rewrite HC, HN; cbn.
    rewrite !gt_lt, andb_true_r; reflexivity. }
  split; [exact Hins|split].
  - apply andb_true_iff.
  - unfold Slits_.removed; rewrite Hins; reflexivity.
Qed.

Lemma inserted_iff_both_strictly_smaller_witness :
  exists b,
    Slits_.inserted slits0 = Ok b /\
    (b = true <->
     Float.lt Float.two Float.five = true /\
     Float.lt Float.two Float.five = true) /\
    Slits_.removed slits0 = Ok (negb b).
Proof.
  apply (@inserted_iff_both_strictly_smaller slits0
           Float.two Float.two Float.five Float.five);
    reflexivity.
Defined.

(** ** Moving the aperture *)

(** X9.  When neither axis move nor the wait raises, [move] makes its calls
    in this order and no others: the [xwidth] move, the [ywidth] move, the
    callback attached to the joint status if one was given, and the wait
    on the joint status if [wait] is set; it returns the joint status. *)
Lemma move_calm_calls (self : Slits) (W : world) (size w h : pyval)
    (wait : bool) (cb : option callback) (timeout : pyval) :
  requests size w h ->
  move_raises W Xwidth = None -> move_raises W Ywidth = None ->
  wait_raises W = None ->
  let js := AndStatus (MoveStatus Xwidth w timeout)
                      (MoveStatus Ywidth h timeout) in
  Slits_.move self W size wait cb timeout
  = ([Move Xwidth w false timeout; Move Ywidth h false timeout]
       ++ match cb with Some c => [AddCallback js c] | None => [] end
       ++ (if wait then [StatusWait js] else []),
     Ok js).
Proof.
  intros Hreq Hx Hy Hw js.
  unfold_move Hreq;
    rewrite ?Hx, ?Hy; cbn; destruct cb, wait; cbn; rewrite ?Hw; reflexivity.
Qed.

(** C4.  A blocking [move] whose wait is interrupted from the keyboard
    (the operator's cancel, [KeyboardInterrupt]) calls [stop] on [xwidth]
    and then on [ywidth], after the wait and before anything else, and
    raises that same interruption: nothing is returned and the exception
    is not replaced. *)
Theorem move_interrupted_stops_both_axes (self : Slits) (W : world)
    (size w h : pyval) (cb : option callback) (timeout : pyval) :
  requests size w h ->
  move_raises W Xwidth = None -> move_raises W Ywidth = None ->
  wait_raises W = Some KeyboardInterrupt ->
  let js := AndStatus (MoveStatus Xwidth w timeout)
                      (MoveStatus Ywidth h timeout) in
  Slits_.move self W size true cb timeout
  = ([Move Xwidth w false timeout; Move Ywidth h false timeout]
       ++ match cb with Some c => [AddCallback js c] | None => [] end
       ++ [StatusWait js; Stop Xwidth; Stop Ywidth],
     Raise KeyboardInterrupt).
Proof.
  intros Hreq Hx Hy Hw js.
  unfold_move Hreq;
    rewrite ?Hx, ?Hy; cbn; destruct cb; cbn; rewrite ?Hw; reflexivity.
Qed.

Lemma move_interrupted_stops_both_axes_witness :
  Slits_.move slits0 interrupted
    (PyTuple [PyFloat Float.one; PyFloat Float.two]) true (Some "done"%string)
    PyNone
  = (let js := AndStatus (MoveStatus Xwidth (PyFloat Float.one) PyNone)
                         (MoveStatus Ywidth (PyFloat Float.two) PyNone) in
     [Move Xwidth (PyFloat Float.one) false PyNone;
      Move Ywidth (PyFloat Float.two) false PyNone]
       ++ [AddCallback js "done"%string]
       ++ [StatusWait js; Stop Xwidth; Stop Ywidth],
     Raise KeyboardInterrupt).
Proof.
  apply (@move_interrupted_stops_both_axes slits0 interrupted
           (PyTuple [PyFloat Float.one; PyFloat Float.two])
           (PyFloat Float.one) (PyFloat Float.two)
           (Some "done"%string) PyNone).
  - left; reflexivity.
  - reflexivity.
  - reflexivity.
  - reflexivity.
Defined.

(** X10.  Any other exception out of the wait (a timeout, a failed status)
    reaches the caller with no [stop] issued: the handler is for
    [KeyboardInterrupt] alone, and both axes are left moving. *)
Lemma move_other_exception_propagates (self : Slits) (W : world)
    (size w h : pyval) (cb : option callback) (timeout : pyval) (e : exn) :
  requests size w h ->
  move_raises W Xwidth = None -> move_raises W Ywidth = None ->
  wait_raises W = Some e -> e <> KeyboardInterrupt ->
  let js := AndStatus (MoveStatus Xwidth w timeout)
                      (MoveStatus Ywidth h timeout) in
  Slits_.move self W size true cb timeout
  = ([Move Xwidth w false timeout; Move Ywidth h false timeout]
       ++ match cb with Some c => [AddCallback js c] | None => [] end
       ++ [StatusWait js],
     Raise e).
Proof.
  intros Hreq Hx Hy Hw He js.
  unfold_move Hreq;
    rewrite ?Hx, ?Hy; cbn; destruct cb; cbn; rewrite ?Hw;
    destruct e; try reflexivity; contradiction.
Qed.

(** C5.  For a size that is not a tuple, [move(x)] is [move((x, x))]: same
    calls, same result, whatever the other arguments and whatever the
    collaborators do; the two axis moves it issues are [x] to [xwidth] and
    [x] to [ywidth]. *)
Theorem move_scalar_is_square (self : Slits) (W : world) (x : pyval)
    (wait : bool) (cb : option callback) (timeout : pyval) :
  is_tuple x = false ->
  Slits_.move self W x wait cb timeout
  = Slits_.move self W (PyTuple [x; x]) wait cb timeout /\
  (move_raises W Xwidth = None ->
   firstn 2 (Eff.calls (Slits_.move self W x wait cb timeout))
   = [Move Xwidth x false timeout; Move Ywidth x false timeout]).
Proof.
  intros Hx; split.
  - destruct x; try discriminate Hx; reflexivity.
  - intros HX.
    destruct x; try discriminate Hx;
      unfold Slits_.move, Positioner.move, status_wait; cbn; rewrite HX; cbn;
      destruct (move_raises W Ywidth); cbn; try reflexivity;
      destruct cb, wait; cbn; try reflexivity;
      destruct (wait_raises W) as [[]|]; reflexivity.
Qed.

Lemma move_scalar_is_square_witness :
  Slits_.move slits0 calm (PyFloat Float.five) false None PyNone
  = Slits_.move slits0 calm (PyTuple [PyFloat Float.five; PyFloat Float.five])
      false None PyNone /\
  (move_raises calm Xwidth = None ->
   firstn 2 (Eff.calls
               (Slits_.move slits0 calm (PyFloat Float.five) false None PyNone))
   = [Move Xwidth (PyFloat Float.five) false PyNone;
      Move Ywidth (PyFloat Float.five) false PyNone]).
Proof.
  apply (@move_scalar_is_square slits0 calm (PyFloat Float.five) false None
           PyNone).
  reflexivity.
Defined.

(** ** Removing the slits *)

(** C6 as stated fails: [remove(0.0)] passes a size, yet the move goes to
    [nominal_aperture] and not to [0.0]. *)
Lemma remove_zero_size_is_not_move_zero :
  Slits_.remove slits0 calm (PyFloat Float.zero) false PyNone None
  <> Slits_.move slits0 calm (PyFloat Float.zero) false None PyNone /\
  Slits_.remove slits0 calm (PyFloat Float.zero) false PyNone None
  = Slits_.move slits0 calm (tuple_of (nominal_aperture slits0)) false None
      PyNone.
Proof.
  split; [|reflexivity].
  intros H. apply (f_equal (fun m => Eff.value m)) in H.
  cbv in H. discriminate H.
Qed.

(** C6 (as amended).  [remove] delegates to [move], with the same [wait],
    [timeout] and keywords: to the given size when one is given and true
    as a condition (a non-zero number, a non-empty tuple), and to
    [nominal_aperture] when none is given. *)
Theorem remove_delegates_to_move (self : Slits) (W : world) (size : pyval)
    (wait : bool) (timeout : pyval) (kwargs : option callback) :
  truthy size = true \/ size = PyNone ->
  Slits_.remove self W size wait timeout kwargs
  = Slits_.move self W
      match size with
      | PyNone => tuple_of (nominal_aperture self)
      | _ => size
      end
      wait kwargs timeout.
Proof.
  intros [H| ->]; unfold Slits_.remove.
  - rewrite H. destruct size; try reflexivity; discriminate H.
  - reflexivity.
Qed.

Lemma remove_delegates_to_move_witness :
  Slits_.remove slits0 calm PyNone false PyNone None
  = ([Move Xwidth (PyFloat Float.five) false PyNone;
      Move Ywidth (PyFloat Float.five) false PyNone],
     Ok (AndStatus (MoveStatus Xwidth (PyFloat Float.five) PyNone)
                   (MoveStatus Ywidth (PyFloat Float.five) PyNone))).
Proof.
  apply (@remove_delegates_to_move slits0 calm PyNone false PyNone None).
  right; reflexivity.
Defined.

(** C9.  [remove] with a size that is false as a condition, [0] and [0.0]
    among them, moves to [nominal_aperture], not to the size given. *)
Theorem remove_falsy_size_moves_to_nominal (self : Slits) (W : world)
    (size : pyval) (wait : bool) (timeout : pyval)
    (kwargs : option callback) :
  size = PyInt 0 \/ size = PyFloat Float.zero \/ truthy size = false ->
  Slits_.remove self W size wait timeout kwargs
  = Slits_.move self W (tuple_of (nominal_aperture self)) wait kwargs timeout.
Proof.
  intros H.
  assert (Hf : truthy size = false)
    by (destruct H as [->|[->|H]]; [reflexivity|reflexivity|exact H]).
  unfold Slits_.remove; now rewrite Hf.
Qed.

Lemma remove_falsy_size_moves_to_nominal_witness :
  Slits_.remove slits0 calm (PyFloat Float.zero) false PyNone None
  = ([Move Xwidth (PyFloat Float.five) false PyNone;
      Move Ywidth (PyFloat Float.five) false PyNone],
     Ok (AndStatus (MoveStatus Xwidth (PyFloat Float.five) PyNone)
                   (MoveStatus Ywidth (PyFloat Float.five) PyNone))).
Proof.
  apply (@remove_falsy_size_moves_to_nominal slits0 calm
           (PyFloat Float.zero) false PyNone None).
  right; left; reflexivity.
Defined.

Example remove_int_zero_moves_to_nominal :
  Eff.calls (Slits_.remove slits0 calm (PyInt 0) false PyNone None)
  = [Move Xwidth (PyFloat Float.five) false PyNone;
     Move Ywidth (PyFloat Float.five) false PyNone].
Proof. reflexivity. Qed.

(** ** Process-variable names *)

(** C8.  For each of the four axis-kind tags, the setpoint address is the
    prefix, a colon, the first four characters of the tag and [_REQ]; the
    readback address is the prefix, [:ACTUAL_] and the whole tag. *)
Theorem pv_names_follow_convention (pre tag : string) (pos : float) :
  In tag slit_types ->
  let p := SlitPositioner_.__init__ pre tag pos in
  exists short rest : string,
    tag = (short ++ rest)%string /\ String.length short = 4 /\
    SlitPositioner_.setpoint_pv p = (pre ++ ":" ++ short ++ "_REQ")%string /\
    SlitPositioner_.readback_pv p = (pre ++ ":ACTUAL_" ++ tag)%string.
Proof.
  intros Hin p; subst p.
  cbn in Hin.
  destruct Hin as [<-|[<-|[<-|[<-|[]]]]].
  - exists "XWID"%string, "TH"%string; repeat split.
  - exists "YWID"%string, "TH"%string; repeat split.
  - exists "XCEN"%string, "TER"%string; repeat split.
  - exists "YCEN"%string, "TER"%string; repeat split.
Qed.

Lemma pv_names_follow_convention_witness :
  exists short rest : string,
    "XWIDTH"%string = (short ++ rest)%string /\ String.length short = 4 /\
    SlitPositioner_.setpoint_pv
      (SlitPositioner_.__init__ "MFX:DG2" "XWIDTH" Float.zero)
    = ("MFX:DG2" ++ ":" ++ short ++ "_REQ")%string /\
    SlitPositioner_.readback_pv
      (SlitPositioner_.__init__ "MFX:DG2" "XWIDTH" Float.zero)
    = ("MFX:DG2" ++ ":ACTUAL_" ++ "XWIDTH")%string.
Proof.
  apply (@pv_names_follow_convention "MFX:DG2" "XWIDTH" Float.zero).
  left; reflexivity.
Defined.

(** The addresses of the four children of a [Slits] device. *)
Lemma slits_children_pv_names (pre : string) (nominal cur : float * float) :
  let s := Slits_.__init__ pre nominal cur in
  SlitPositioner_.setpoint_pv (xwidth s) = (pre ++ ":XWID_REQ")%string /\
  SlitPositioner_.readback_pv (xwidth s) = (pre ++ ":ACTUAL_XWIDTH")%string /\
  SlitPositioner_.setpoint_pv (ywidth s) = (pre ++ ":YWID_REQ")%string /\
  SlitPositioner_.readback_pv (ywidth s) = (pre ++ ":ACTUAL_YWIDTH")%string /\
  SlitPositioner_.setpoint_pv (xcenter s) = (pre ++ ":XCEN_REQ")%string /\
  SlitPositioner_.readback_pv (xcenter s) = (pre ++ ":ACTUAL_XCENTER")%string /\
  SlitPositioner_.setpoint_pv (ycenter s) = (pre ++ ":YCEN_REQ")%string /\
  SlitPositioner_.readback_pv (ycenter s) = (pre ++ ":ACTUAL_YCENTER")%string.
Proof. repeat split. Qed.

(** ** Subscriptions *)


Lemma subscribe_first (s : Slits) (c : subscribe_call) :
  _has_subscribed s = false ->
  readback_subs (xwidth s) = [] -> readback_subs (ywidth s) = [] ->
  attached (do_subscribe s c) /\
  _subs (do_subscribe s c) = _subs s ++ [entry_of c] /\
  signal_log (do_subscribe s c) = signal_log s ++ attachment /\
  dispatched (do_subscribe s c) = dispatched s.
Proof.
  intros Hflag Hx Hy.
  unfold do_subscribe, Slits_.subscribe, entry_of, attached, attachment.
  rewrite Hflag; cbn.
  rewrite Hx, Hy, <- app_assoc.
  repeat split; reflexivity.
Qed.

Lemma subscribe_later (s : Slits) (c : subscribe_call) :
  attached s ->
  attached (do_subscribe s c) /\
  _subs (do_subscribe s c) = _subs s ++ [entry_of c] /\
  signal_log (do_subscribe s c) = signal_log s.
Proof.
  intros (Hflag & Hx & Hy).
  unfold do_subscribe, Slits_.subscribe, entry_of, attached.
  rewrite Hflag; cbn.
  repeat split; assumption || reflexivity.
Qed.

Lemma subscribe_all_later (cs : list subscribe_call) :
  forall s, attached s ->
  attached (subscribe_all s cs) /\
  _subs (subscribe_all s cs) = _subs s ++ map entry_of cs /\
  signal_log (subscribe_all s cs) = signal_log s.
Proof.
  induction cs as [|c cs IH]; intros s Hs.
  - cbn; now rewrite !app_nil_r.
  - change (subscribe_all s (c :: cs))
      with (subscribe_all (do_subscribe s c) cs).
    cbn [map].
    destruct (@subscribe_later s c Hs) as (Ha & Hsubs & Hlog).
    destruct (IH _ Ha) as (Ha' & Hsubs' & Hlog').
    repeat split; try apply Ha'.
    + rewrite Hsubs', Hsubs, <- app_assoc; reflexivity.
    + now rewrite Hlog', Hlog.
Qed.

Lemma state_entries (cs : list subscribe_call) :
  map snd (filter (fun e => String.eqb (fst e) SUB_STATE) (map entry_of cs))
  = map sc_cb (filter on_state_event cs).
Proof.
  induction cs as [|c cs IH]; cbn; [reflexivity|].
  unfold on_state_event at 1, entry_of at 1.
  destruct (sc_event_type c) as [t|]; cbn.
  - destruct (String.eqb t SUB_STATE); cbn; now rewrite IH.
  - now rewrite IH.
Qed.

Lemma readback_changed_attached (ax : child) (s : Slits) :
  attached s -> ax = Xwidth \/ ax = Ywidth ->
  called (Slits_.readback_changed ax s)
  = called s
    ++ map snd (filter (fun e => String.eqb (fst e) SUB_STATE) (_subs s)) /\
  signal_log (Slits_.readback_changed ax s)
  = signal_log s ++ [Ran aperture_changed_cb].
Proof.
  intros (_ & Hx & Hy) [-> | ->]; unfold Slits_.readback_changed; cbn;
    rewrite ?Hx, ?Hy; split; reflexivity.
Qed.

(** C7 as stated fails: a callback registered for another event type than
    the state event is held by the device, yet a change of a width readback
    does not invoke it. *)
Lemma callback_for_another_event_does_not_fire :
  let c := {| sc_cb := "cb"%string; sc_event_type := Some "acq_done"%string;
              sc_run := false |} in
  let s := subscribe_all slits0 [c] in
  In ("acq_done"%string, "cb"%string) (_subs s) /\
  called (Slits_.readback_changed Xwidth s) = [] /\
  called (Slits_.readback_changed Ywidth s) = [].
Proof.
  repeat split. now left.
Qed.

(** C7 (as amended).  On a fresh device, whatever calls to [subscribe]
    follow one another: the first one subscribes [_aperture_changed] to the
    [xwidth] and the [ywidth] readback, each with [run=False], so that
    neither signal has run it and nothing has been invoked, and sets the
    flag; no later call subscribes anything to a readback again, so each
    readback holds that listener exactly once; and a change of either
    readback then runs the listener once and invokes, once each and in
    order of registration, the callbacks registered for the state event
    (the event type left out, or [SUB_STATE]), each of which therefore
    fires. *)
Theorem subscribe_attaches_listener_once
    (pre : string) (nominal cur : float * float)
    (c : subscribe_call) (cs : list subscribe_call) :
  let s0 := Slits_.__init__ pre nominal cur in
  let s1 := do_subscribe s0 c in
  let s := subscribe_all s0 (c :: cs) in
  (_has_subscribed s0 = false /\
   readback_subs (xwidth s0) = [] /\ readback_subs (ywidth s0) = [] /\
   signal_log s0 = []) /\
  (_has_subscribed s1 = true /\
   readback_subs (xwidth s1) = [aperture_changed_cb] /\
   readback_subs (ywidth s1) = [aperture_changed_cb] /\
   signal_log s1 = [Subscribed Xwidth aperture_changed_cb false;
                    Subscribed Ywidth aperture_changed_cb false] /\
   called s1 = []) /\
  (_has_subscribed s = true /\
   readback_subs (xwidth s) = [aperture_changed_cb] /\
   readback_subs (ywidth s) = [aperture_changed_cb] /\
   signal_log s = signal_log s1) /\
  (forall ax, ax = Xwidth \/ ax = Ywidth ->
     called (Slits_.readback_changed ax s)
     = called s ++ map sc_cb (filter on_state_event (c :: cs)) /\
     signal_log (Slits_.readback_changed ax s)
     = signal_log s ++ [Ran aperture_changed_cb]) /\
  (forall ax c', ax = Xwidth \/ ax = Ywidth ->
     In c' (c :: cs) -> on_state_event c' = true ->
     In (sc_cb c')
        (skipn (List.length (called s)) (called (Slits_.readback_changed ax s)))).
Proof.
  intros s0 s1 s.
  assert (H0 : _has_subscribed s0 = false /\
               readback_subs (xwidth s0) = [] /\
               readback_subs (ywidth s0) = []) by (repeat split).
  destruct H0 as (Hf0 & Hx0 & Hy0).
  destruct (@subscribe_first s0 c Hf0 Hx0 Hy0)
    as (Ha1 & Hsubs1 & Hlog1 & Hdisp1).
  fold s1 in Ha1, Hsubs1, Hlog1, Hdisp1.
  destruct (@subscribe_all_later cs s1 Ha1) as (Ha & Hsubs & Hlog).
  change (subscribe_all s1 cs) with s in Ha, Hsubs, Hlog.
  assert (Hfire : forall ax, ax = Xwidth \/ ax = Ywidth ->
            called (Slits_.readback_changed ax s)
            = called s ++ map sc_cb (filter on_state_event (c :: cs)) /\
            signal_log (Slits_.readback_changed ax s)
            = signal_log s ++ [Ran aperture_changed_cb]).
  { intros ax Hax.
    destruct (@readback_changed_attached ax s Ha Hax) as [Hc Hl].
    split; [|exact Hl].
    rewrite Hc, Hsubs, Hsubs1.
    cbn [_subs s0 Slits_.__init__ app].
    change (entry_of c :: map entry_of cs) with (map entry_of (c :: cs)).
    now rewrite state_entries. }
  split; [repeat split|].
  split.
  { destruct Ha1 as (? & ? & ?); repeat split; auto.
    subst s1 s0; unfold do_subscribe, Slits_.subscribe,
      Slits_.super_subscribe; cbn.
    now rewrite andb_false_r. }
  split; [destruct Ha as (? & ? & ?); repeat split; auto|].
  split; [exact Hfire|].
  intros ax c' Hax Hin Hon.
  rewrite (proj1 (Hfire ax Hax)), skipn_app, Nat.sub_diag, skipn_all, skipn_O.
  cbn [app]. apply in_map, filter_In; split; assumption.
Qed.

Lemma subscribe_attaches_listener_once_witness :
  let c1 := {| sc_cb := "cb1"%string; sc_event_type := None;
               sc_run := false |} in
  let c2 := {| sc_cb := "cb2"%string; sc_event_type := Some SUB_STATE;
               sc_run := true |} in
  let s := subscribe_all slits0 [c1; c2] in
  called (Slits_.readback_changed Xwidth s)
  = called s ++ ["cb1"; "cb2"]%string.
Proof.
  intros c1 c2 s.
  exact (proj1 (proj1 (proj2 (proj2 (proj2
           (@subscribe_attaches_listener_once "MFX:DG2"
              Slits_.default_nominal (Float.two, Float.two) c1 [c2]))))
           Xwidth (or_introl eq_refl))).
Defined.

(** ** The joint status of a move *)


Lemma run_snoc (tr : list event) (e : event) (t : live) :
  run (tr ++ [e]) t = step e (run tr t).
Proof. unfold run; now rewrite fold_left_app. Qed.

Lemma run_move (tr : list event) :
  forall ax st, exists st', run tr (LiveMove ax st) = LiveMove ax st'.
Proof.
  induction tr as [|e tr IH]; intros ax st; cbn.
  - now exists st.
  - apply IH.
Qed.

Lemma run_and (tr : list event) :
  forall st l r,
    exists st', run tr (LiveAnd st l r) = LiveAnd st' (run tr l) (run tr r).
Proof.
  induction tr as [|e tr IH]; intros st l r; cbn.
  - now exists st.
  - apply IH.
Qed.

Lemma after_move_snoc (tr : list event) (e : event) (ax : child)
    (p t : pyval) :
  after (tr ++ [e]) (MoveStatus ax p t)
  = if child_eqb ax (ev_axis e)
    then settle (after tr (MoveStatus ax p t)) (Some (ev_outcome e))
    else after tr (MoveStatus ax p t).
Proof.
  unfold after; rewrite run_snoc; cbn [watch].
  destruct (run_move tr ax None) as [st' ->]; cbn.
  now destruct (child_eqb ax (ev_axis e)).
Qed.

Lemma after_and_snoc (tr : list event) (e : event) (l r : status) :
  after (tr ++ [e]) (AndStatus l r)
  = settle (after tr (AndStatus l r))
      (and_states (after (tr ++ [e]) l) (after (tr ++ [e]) r)).
Proof.
  unfold after; rewrite !run_snoc; cbn [watch].
  destruct (run_and tr None (watch l) (watch r)) as [st' ->].
  reflexivity.
Qed.

Lemma child_eqb_eq (a b : child) : child_eqb a b = true <-> a = b.
Proof. destruct a, b; cbn; split; congruence. Qed.

Lemma after_move_unreported (tr : list event) (ax : child) (p t : pyval) :
  ~ In ax (map ev_axis tr) -> after tr (MoveStatus ax p t) = None.
Proof.
  induction tr as [|e tr IH] using rev_ind; intros Hnin; [reflexivity|].
  rewrite map_app, in_app_iff in Hnin; cbn in Hnin.
  rewrite after_move_snoc, IH by tauto.
  destruct (child_eqb ax (ev_axis e)) eqn:E; [|reflexivity].
  apply child_eqb_eq in E; subst ax; tauto.
Qed.

Lemma first_failure_snoc (axes : list child) (tr : list event) (e : event) :
  first_failure axes (tr ++ [e])
  = match first_failure axes tr with
    | Some d => Some d
    | None => first_failure axes [e]
    end.
Proof.
  induction tr as [|e' tr IH]; cbn [app first_failure].
  - now destruct (first_failure axes [e]).
  - destruct (ev_outcome e'); [exact IH|].
    destruct (existsb _ axes); [reflexivity|exact IH].
Qed.


(** The joint status of the two width moves, at every moment: failed with
    the first failure's detail once a width axis has failed, and otherwise
    the conjunction of the two. *)
Lemma joint_status_invariant (w h timeout : pyval) (tr : list event) :
  NoDup (map ev_axis tr) ->
  let xs := MoveStatus Xwidth w timeout in
  let ys := MoveStatus Ywidth h timeout in
  after tr (AndStatus xs ys)
  = match first_failure width_axes tr with
    | Some d => Some (Failure d)
    | None => and_states (after tr xs) (after tr ys)
    end /\
  (first_failure width_axes tr = None <->
   is_failure (after tr xs) = false /\ is_failure (after tr ys) = false).
Proof.
  intros Hnd xs ys; revert Hnd.
  induction tr as [|e tr IH] using rev_ind; intros Hnd.
  - split; [reflexivity|]. split; [now split|reflexivity].
  - rewrite map_app in Hnd; cbn [map] in Hnd.
    apply NoDup_remove in Hnd; rewrite app_nil_r in Hnd.
    destruct Hnd as [Hnd Hnin].
    destruct (IH Hnd) as [IHj IHf]; clear IH.
    rewrite after_and_snoc, first_failure_snoc, IHj.
    subst xs ys; rewrite !after_move_snoc.
    pose proof (@after_move_unreported tr Xwidth w timeout) as Ux.
    pose proof (@after_move_unreported tr Ywidth h timeout) as Uy.
    destruct e as [ax o]; cbn [ev_axis ev_outcome] in *.
    destruct (first_failure width_axes tr) as [d|].
    + assert (Hfail : ~ (is_failure (after tr (MoveStatus Xwidth w timeout)) = false /\
                         is_failure (after tr (MoveStatus Ywidth h timeout)) = false))
        by (intros H; apply IHf in H; discriminate H).
      split; [reflexivity|].
      split; [discriminate|]. intros [H1 H2]; exfalso; apply Hfail.
      destruct ax;
        destruct (after tr (MoveStatus Xwidth w timeout)) as [[|dx]|];
        destruct (after tr (MoveStatus Ywidth h timeout)) as [[|dy]|];
        cbn in *; auto; discriminate.
    + destruct IHf as [IHf _]; destruct (IHf eq_refl) as [Fx Fy].
      destruct ax; cbn [child_eqb first_failure existsb width_axes orb];
        try (rewrite Ux by exact Hnin); try (rewrite Uy by exact Hnin);
        destruct o as [|d];
        destruct (after tr (MoveStatus Xwidth w timeout)) as [[|dx]|];
        destruct (after tr (MoveStatus Ywidth h timeout)) as [[|dy]|];
        cbn in *; try discriminate;
        (split; [reflexivity|split; [auto; discriminate|auto; intros []; discriminate]]).
Qed.

(** C3.  [move((w, h), wait=False)] issues the two axis moves without
    waiting and returns [x_stat & y_stat], the join of the statuses of the
    [xwidth] and [ywidth] moves.  At every moment of any run in which each
    axis reports at most once: the joint status has succeeded exactly when
    both statuses have; it is unresolved while one axis is still unresolved
    and the other has not failed; and as soon as an axis has failed it has
    failed, with the detail of the first failure. *)
Theorem move_joint_status_is_and (self : Slits) (W : world)
    (w h : pyval) (cb : option callback) (timeout : pyval)
    (tr : list event) :
  move_raises W Xwidth = None -> move_raises W Ywidth = None ->
  NoDup (map ev_axis tr) ->
  let xs := MoveStatus Xwidth w timeout in
  let ys := MoveStatus Ywidth h timeout in
  let js := AndStatus xs ys in
  Slits_.move self W (PyTuple [w; h]) false cb timeout
  = ([Move Xwidth w false timeout; Move Ywidth h false timeout]
       ++ match cb with Some c => [AddCallback js c] | None => [] end,
     Ok js) /\
  (after tr js = Some Success <->
   after tr xs = Some Success /\ after tr ys = Some Success) /\
  ((after tr xs = None /\ is_failure (after tr ys) = false) \/
   (after tr ys = None /\ is_failure (after tr xs) = false) ->
   after tr js = None) /\
  (forall d, first_failure width_axes tr = Some d ->
             after tr js = Some (Failure d)) /\
  (is_failure (after tr xs) = true \/ is_failure (after tr ys) = true ->
   exists d, first_failure width_axes tr = Some d /\
             after tr js = Some (Failure d)).
Proof.
  intros Hx Hy Hnd xs ys js.
  destruct (@joint_status_invariant w h timeout tr Hnd) as [Hj Hf].
  fold xs ys js in Hj, Hf.
  split.
  { unfold Slits_.move, Positioner.move; cbn; rewrite Hx; cbn; rewrite Hy;
      cbn; destruct cb; reflexivity. }
  destruct (first_failure width_axes tr) as [d|] eqn:Eff.
  - assert (Hfail : ~ (is_failure (after tr xs) = false /\
                       is_failure (after tr ys) = false))
      by (intros H; apply Hf in H; discriminate H).
    rewrite Hj; repeat split.
    + discriminate.
    + discriminate.
    + intros [H1 H2]; exfalso; apply Hfail.
      rewrite H1, H2; now split.
    + intros [[H1 H2]|[H1 H2]]; exfalso; apply Hfail;
        rewrite H1, H2; now split.
    + congruence.
    + intros _; now exists d.
  - destruct Hf as [Hf _]; destruct (Hf eq_refl) as [Fx Fy].
    rewrite Hj.
    destruct (after tr xs) as [[|dx]|], (after tr ys) as [[|dy]|];
      cbn in *; try discriminate;
      repeat split; try tauto; try discriminate; try congruence;
      try (intros [? ?]; discriminate);
      try (intros [?|?]; discriminate).
Qed.

Lemma move_joint_status_is_and_witness :
  let tr := [ {| ev_axis := Xwidth; ev_outcome := Success |};
              {| ev_axis := Ywidth; ev_outcome := Failure "limit" |} ] in
  let xs := MoveStatus Xwidth (PyFloat Float.one) PyNone in
  let ys := MoveStatus Ywidth (PyFloat Float.two) PyNone in
  after tr (AndStatus xs ys) = Some (Failure "limit") /\
  after [ {| ev_axis := Xwidth; ev_outcome := Success |} ] (AndStatus xs ys)
  = None.
Proof.
  intros tr xs ys; split.
  - refine (proj1 (proj2 (proj2 (proj2
      (@move_joint_status_is_and slits0 calm (PyFloat Float.one)
         (PyFloat Float.two) None PyNone tr eq_refl eq_refl _)))) _ eq_refl).
    repeat constructor; cbn; intuition discriminate.
  - refine (proj1 (proj2 (proj2
      (@move_joint_status_is_and slits0 calm (PyFloat Float.one)
         (PyFloat Float.two) None PyNone
         [ {| ev_axis := Xwidth; ev_outcome := Success |} ]
         eq_refl eq_refl _))) _).
    + repeat constructor; cbn; intuition.
    + right; split; reflexivity.
Defined.

(** * Further properties of the module *)

(** ** Transmission and insertion on any readings *)

Lemma np_argmin_index (t : float * float) :
  np_argmin t = 0 \/ np_argmin t = 1.
Proof.
  destruct t as [c0 c1]; unfold np_argmin.
  destruct (Float.is_nan c0); [now left|].
  destruct (Float.ge c1 c0); [now left|now right].
Qed.

(** [transmission] on any device: the two components on the dimension that
    [np.argmin] picks, then the division and the cap. *)
Lemma transmission_cases (self : Slits) :
  exists c n,
    getitem (Slits_.current_aperture self)
      (np_argmin (Slits_.current_aperture self)) = Ok c /\
    getitem (nominal_aperture self)
      (np_argmin (Slits_.current_aperture self)) = Ok n /\
    Slits_.transmission self
    = if Float.eq n Float.zero then Raise ZeroDivisionError
      else Ok (py_min2 (SFdiv Float.prec Float.emax c n) Float.one).
Proof.
  unfold Slits_.transmission, Float.truediv.
  destruct (np_argmin_index (Slits_.current_aperture self)) as [-> | ->];
    cbn [getitem Err.bind].
  - exists (fst (Slits_.current_aperture self)), (fst (nominal_aperture self)).
    repeat split. now destruct (Float.eq _ Float.zero).
  - exists (snd (Slits_.current_aperture self)), (snd (nominal_aperture self)).
    repeat split. now destruct (Float.eq _ Float.zero).
Qed.

(** X1.  Whatever the readings and the nominal aperture (negative, infinite
    or NaN included), a value returned by [transmission] is never greater
    than [1.0]. *)
Theorem transmission_never_exceeds_one (self : Slits) (r : float) :
  Slits_.transmission self = Ok r -> Float.gt r Float.one = false.
Proof.
  destruct (transmission_cases self) as (c & n & _ & _ & ->).
  destruct (Float.eq n Float.zero); [discriminate|].
  intros H; injection H as <-.
  rewrite gt_lt; unfold py_min2.
  destruct (Float.lt Float.one (SFdiv Float.prec Float.emax c n)) eqn:E.
  - reflexivity.
  - exact E.
Qed.

Lemma transmission_never_exceeds_one_witness :
  Float.gt Float.one Float.one = false.
Proof.
  apply (@transmission_never_exceeds_one
           (Slits_.__init__ "MFX:DG2" Slits_.default_nominal
              (Float.six, Float.six)) Float.one).
  reflexivity.
Defined.

(** X2.  [transmission] raises nothing but [ZeroDivisionError], and raises
    it exactly when the nominal component on the dimension picked by
    [np.argmin] is zero; the indexing itself never fails. *)
Theorem transmission_raises_iff_zero_nominal (self : Slits) (e : exn) :
  Slits_.transmission self = Raise e <->
  e = ZeroDivisionError /\
  exists n,
    getitem (nominal_aperture self)
      (np_argmin (Slits_.current_aperture self)) = Ok n /\
    Float.eq n Float.zero = true.
Proof.
  destruct (transmission_cases self) as (c & n & _ & Hn & ->).
  destruct (Float.eq n Float.zero) eqn:E; split.
  - intros H; injection H as <-. split; [reflexivity|now exists n].
  - now intros [-> _].
  - discriminate.
  - intros [_ (n' & Hn' & Hz)].
    rewrite Hn in Hn'; injection Hn' as <-; congruence.
Qed.

(** X3.  A NaN in any component of the current or the nominal aperture
    makes [inserted] false and [removed] true. *)
Theorem nan_aperture_is_removed (self : Slits) (cw ch nw nh : float) :
  Slits_.current_aperture self = (cw, ch) ->
  nominal_aperture self = (nw, nh) ->
  Float.is_nan cw || Float.is_nan ch || Float.is_nan nw || Float.is_nan nh
  = true ->
  Slits_.inserted self = Ok false /\ Slits_.removed self = Ok true.
Proof.
  intros HC HN Hnan.
  assert (Hins : Slits_.inserted self = Ok false).
  { unfold Slits_.inserted; rewrite HC, HN; cbn.
    destruct cw, ch, nw, nh; try discriminate Hnan; cbn [Float.gt SFcompare];
      rewrite ?andb_false_r; reflexivity. }
  split; [exact Hins|].
  unfold Slits_.removed; now rewrite Hins.
Qed.

Lemma nan_aperture_is_removed_witness :
  let s := Slits_.__init__ "MFX:DG2" Slits_.default_nominal
             (Float.nan, Float.two) in
  Slits_.inserted s = Ok false /\ Slits_.removed s = Ok true.
Proof.
  apply (@nan_aperture_is_removed
           (Slits_.__init__ "MFX:DG2" Slits_.default_nominal
              (Float.nan, Float.two))
           Float.nan Float.two Float.five Float.five);
    reflexivity.
Defined.

Lemma SFdiv_nan_l (n : float) :
  SFdiv Float.prec Float.emax S754_nan n = S754_nan.
Proof. now destruct n. Qed.

(** X4.  A NaN in the current aperture is the component [np.argmin] picks,
    and [transmission] then returns a NaN (the cap does not replace it),
    unless the nominal component on that dimension is zero. *)
Theorem nan_reading_gives_nan_transmission
    (self : Slits) (cw ch n : float) :
  Slits_.current_aperture self = (cw, ch) ->
  Float.is_nan cw || Float.is_nan ch = true ->
  getitem (nominal_aperture self)
    (np_argmin (Slits_.current_aperture self)) = Ok n ->
  Float.eq n Float.zero = false ->
  Slits_.transmission self = Ok Float.nan.
Proof.
  intros HC Hnan Hn Hz.
  unfold Slits_.transmission, Float.truediv.
  rewrite Hn. rewrite HC in *.
  assert (Hc : getitem (cw, ch) (np_argmin (cw, ch)) = Ok S754_nan).
  { unfold np_argmin.
    destruct cw; try reflexivity;
      destruct ch; try discriminate Hnan; reflexivity. }
  rewrite Hc; cbn [Err.bind]; rewrite Hz; cbn [Err.bind].
  now rewrite SFdiv_nan_l.
Qed.

Lemma nan_reading_gives_nan_transmission_witness :
  Slits_.transmission
    (Slits_.__init__ "MFX:DG2" Slits_.default_nominal (Float.two, Float.nan))
  = Ok Float.nan.
Proof.
  apply (@nan_reading_gives_nan_transmission
           (Slits_.__init__ "MFX:DG2" Slits_.default_nominal
              (Float.two, Float.nan))
           Float.two Float.nan Float.five);
    reflexivity.
Defined.

Lemma is_zero_shape (c : float) :
  Float.eq c Float.zero = true -> exists s, c = S754_zero s.
Proof.
  destruct c as [s|[]| |[] m e]; cbn; try discriminate.
  intros _; now exists s.
Qed.

(** X5.  When the component [np.argmin] picks from the current aperture is
    zero and the nominal component on that dimension is greater than zero,
    [transmission] returns zero: closed slits transmit nothing. *)
Theorem closed_slits_transmit_nothing (self : Slits) (c n : float) :
  getitem (Slits_.current_aperture self)
    (np_argmin (Slits_.current_aperture self)) = Ok c ->
  getitem (nominal_aperture self)
    (np_argmin (Slits_.current_aperture self)) = Ok n ->
  Float.eq c Float.zero = true ->
  Float.lt Float.zero n = true ->
  exists r, Slits_.transmission self = Ok r /\ Float.eq r Float.zero = true.
Proof.
  intros Hc Hn Hz Hpos.
  unfold Slits_.transmission, Float.truediv.
  rewrite Hc, Hn; cbn [Err.bind].
  rewrite (positive_not_zero n Hpos); cbn [Err.bind].
  destruct (is_zero_shape c Hz) as [s ->].
  destruct (positive_shape n Hpos) as [->|(m & e & ->)];
    exists (S754_zero s); split; destruct s; reflexivity.
Qed.

Lemma closed_slits_transmit_nothing_witness :
  exists r,
    Slits_.transmission
      (Slits_.__init__ "MFX:DG2" Slits_.default_nominal
         (Float.zero, Float.two)) = Ok r /\
    Float.eq r Float.zero = true.
Proof.
  apply (@closed_slits_transmit_nothing
           (Slits_.__init__ "MFX:DG2" Slits_.default_nominal
              (Float.zero, Float.two))
           Float.zero Float.five);
    reflexivity.
Defined.

(** ** What [move] does when something goes wrong *)

(** X6.  A tuple that does not have exactly two items cannot be unpacked:
    [move] raises [ValueError] before any axis is commanded. *)
Theorem move_malformed_tuple_raises (self : Slits) (W : world)
    (items : list pyval) (wait : bool) (cb : option callback)
    (timeout : pyval) :
  List.length items <> 2 ->
  Slits_.move self W (PyTuple items) wait cb timeout = ([], Raise ValueError).
Proof.
  intros Hlen.
  destruct items as [|a [|b [|c l]]]; try reflexivity.
  now contradiction Hlen.
Qed.

Lemma move_malformed_tuple_raises_witness :
  Slits_.move slits0 calm (PyTuple [PyFloat Float.one]) true None PyNone
  = ([], Raise ValueError).
Proof.
  apply (@move_malformed_tuple_raises slits0 calm [PyFloat Float.one] true
           None PyNone).
  cbn; discriminate.
Defined.

(** X7.  When the [xwidth] move raises, [move] raises the same exception and
    [ywidth] is never commanded: the log holds the [xwidth] move alone. *)
Theorem move_xwidth_failure_skips_ywidth (self : Slits) (W : world)
    (size w h : pyval) (wait : bool) (cb : option callback)
    (timeout : pyval) (e : exn) :
  requests size w h ->
  move_raises W Xwidth = Some e ->
  Slits_.move self W size wait cb timeout
  = ([Move Xwidth w false timeout], Raise e).
Proof.
  intros Hreq Hx. unfold_move Hreq; rewrite Hx; reflexivity.
Qed.

Lemma move_xwidth_failure_skips_ywidth_witness :
  Slits_.move slits0 xwidth_out_of_limits (PyFloat Float.six) true None PyNone
  = ([Move Xwidth (PyFloat Float.six) false PyNone], Raise ValueError).
Proof.
  apply (@move_xwidth_failure_skips_ywidth slits0 xwidth_out_of_limits
           (PyFloat Float.six) (PyFloat Float.six) (PyFloat Float.six)
           true None PyNone ValueError).
  - right; repeat split.
  - reflexivity.
Defined.

(** X8.  When the [ywidth] move raises after the [xwidth] move was accepted,
    [move] raises that exception with the [xwidth] move already issued and
    not withdrawn: no stop, no callback, no wait. *)
Theorem move_ywidth_failure_leaves_xwidth_moving (self : Slits) (W : world)
    (size w h : pyval) (wait : bool) (cb : option callback)
    (timeout : pyval) (e : exn) :
  requests size w h ->
  move_raises W Xwidth = None ->
  move_raises W Ywidth = Some e ->
  Slits_.move self W size wait cb timeout
  = ([Move Xwidth w false timeout; Move Ywidth h false timeout], Raise e).
Proof.
  intros Hreq Hx Hy. unfold_move Hreq; rewrite Hx; cbn; rewrite Hy; reflexivity.
Qed.

Lemma move_ywidth_failure_leaves_xwidth_moving_witness :
  Slits_.move slits0 ywidth_out_of_limits
    (PyTuple [PyFloat Float.one; PyFloat Float.six]) true (Some "done"%string)
    PyNone
  = ([Move Xwidth (PyFloat Float.one) false PyNone;
      Move Ywidth (PyFloat Float.six) false PyNone], Raise ValueError).
Proof.
  apply (@move_ywidth_failure_leaves_xwidth_moving slits0 ywidth_out_of_limits
           (PyTuple [PyFloat Float.one; PyFloat Float.six])
           (PyFloat Float.one) (PyFloat Float.six)
           true (Some "done"%string) PyNone ValueError).
  - left; reflexivity.
  - reflexivity.
  - reflexivity.
Defined.

Lemma move_calm_calls_witness :
  Slits_.move slits0 calm (PyFloat Float.five) true (Some "done"%string)
    (PyFloat Float.two)
  = ([Move Xwidth (PyFloat Float.five) false (PyFloat Float.two);
      Move Ywidth (PyFloat Float.five) false (PyFloat Float.two)]
       ++ [AddCallback
             (AndStatus
                (MoveStatus Xwidth (PyFloat Float.five) (PyFloat Float.two))
                (MoveStatus Ywidth (PyFloat Float.five) (PyFloat Float.two)))
             "done"%string]
       ++ [StatusWait
             (AndStatus
                (MoveStatus Xwidth (PyFloat Float.five) (PyFloat Float.two))
                (MoveStatus Ywidth (PyFloat Float.five) (PyFloat Float.two)))],
     Ok (AndStatus
           (MoveStatus Xwidth (PyFloat Float.five) (PyFloat Float.two))
           (MoveStatus Ywidth (PyFloat Float.five) (PyFloat Float.two)))).
Proof.
  apply (@move_calm_calls slits0 calm (PyFloat Float.five)
           (PyFloat Float.five) (PyFloat Float.five) true
           (Some "done"%string) (PyFloat Float.two)).
  - right; repeat split.
  - reflexivity.
  - reflexivity.
  - reflexivity.
Defined.

Lemma move_other_exception_propagates_witness :
  Slits_.move slits0 timed_out (PyFloat Float.five) true None PyNone
  = ([Move Xwidth (PyFloat Float.five) false PyNone;
      Move Ywidth (PyFloat Float.five) false PyNone] ++ []
       ++ [StatusWait
             (AndStatus (MoveStatus Xwidth (PyFloat Float.five) PyNone)
                        (MoveStatus Ywidth (PyFloat Float.five) PyNone))],
     Raise TimeoutError).
Proof.
  apply (@move_other_exception_propagates slits0 timed_out
           (PyFloat Float.five) (PyFloat Float.five) (PyFloat Float.five)
           None PyNone TimeoutError).
  - right; repeat split.
  - reflexivity.
  - reflexivity.
  - reflexivity.
  - discriminate.
Defined.

(** ** What [move] never does *)

(** X11.  [move] stops an axis only after a blocking wait was interrupted
    from the keyboard: a [stop] in its log means [wait] was set, the wait
    raised [KeyboardInterrupt], and that is what [move] raises. *)
Theorem move_stops_only_when_interrupted (self : Slits) (W : world)
    (size : pyval) (wait : bool) (cb : option callback) (timeout : pyval)
    (ax : child) :
  In (Stop ax) (Eff.calls (Slits_.move self W size wait cb timeout)) ->
  wait = true /\ wait_raises W = Some KeyboardInterrupt /\
  Eff.value (Slits_.move self W size wait cb timeout)
  = Raise KeyboardInterrupt /\
  (ax = Xwidth \/ ax = Ywidth).
Proof.
  move_cases W size cb wait; intros H;
    repeat (destruct H as [H|H]; try discriminate H);
    try contradiction;
    injection H as <-; repeat split; auto.
Qed.

Lemma move_stops_only_when_interrupted_witness :
  true = true /\ wait_raises interrupted = Some KeyboardInterrupt /\
  Eff.value (Slits_.move slits0 interrupted (PyFloat Float.five) true None
               PyNone)
  = Raise KeyboardInterrupt /\
  (Ywidth = Xwidth \/ Ywidth = Ywidth).
Proof.
  apply (@move_stops_only_when_interrupted slits0 interrupted
           (PyFloat Float.five) true None PyNone Ywidth).
  cbn; tauto.
Defined.

(** X12.  Every axis move that [move] issues goes to [xwidth] or [ywidth],
    is non-blocking and carries the caller's timeout: the centers are never
    moved and no axis is waited on inside its own move. *)
Theorem move_commands_only_width_axes (self : Slits) (W : world)
    (size : pyval) (wait : bool) (cb : option callback) (timeout : pyval)
    (ax : child) (p : pyval) (wt : bool) (t : pyval) :
  In (Move ax p wt t) (Eff.calls (Slits_.move self W size wait cb timeout)) ->
  (ax = Xwidth \/ ax = Ywidth) /\ wt = false /\ t = timeout.
Proof.
  move_cases W size cb wait; intros H;
    repeat (destruct H as [H|H]; try discriminate H);
    try contradiction;
    injection H as <- <- <- <-; repeat split; auto.
Qed.

Lemma move_commands_only_width_axes_witness :
  (Ywidth = Xwidth \/ Ywidth = Ywidth) /\ false = false /\ PyNone = PyNone.
Proof.
  apply (@move_commands_only_width_axes slits0 calm
           (PyTuple [PyFloat Float.one; PyFloat Float.two]) false None PyNone
           Ywidth (PyFloat Float.two) false PyNone).
  cbn; tauto.
Defined.

(** X13.  Whenever [move] returns, with or without waiting, what it returns
    is the join of the [xwidth] and [ywidth] move statuses for the width and
    height its size asks for, both moves are in the log, and a wait is in
    the log exactly when [wait] was set. *)
Theorem move_returns_the_joint_status (self : Slits) (W : world)
    (size : pyval) (wait : bool) (cb : option callback) (timeout : pyval)
    (st : status) :
  Eff.value (Slits_.move self W size wait cb timeout) = Ok st ->
  exists w h,
    requests size w h /\
    st = AndStatus (MoveStatus Xwidth w timeout) (MoveStatus Ywidth h timeout) /\
    firstn 2 (Eff.calls (Slits_.move self W size wait cb timeout))
    = [Move Xwidth w false timeout; Move Ywidth h false timeout] /\
    existsb is_wait (Eff.calls (Slits_.move self W size wait cb timeout))
    = wait.
Proof.
  move_cases W size cb wait; intros H; try discriminate H;
    injection H as <-;
    match goal with
    | |- exists w h, requests (PyTuple [?a; ?b]) w h /\ _ =>
        exists a, b; split; [left; reflexivity|repeat split]
    | |- exists w h, requests ?s w h /\ _ =>
        exists s, s; split; [right; repeat split|repeat split]
    end.
Qed.

Lemma move_returns_the_joint_status_witness :
  exists w h,
    requests (PyFloat Float.five) w h /\
    AndStatus (MoveStatus Xwidth (PyFloat Float.five) PyNone)
              (MoveStatus Ywidth (PyFloat Float.five) PyNone)
    = AndStatus (MoveStatus Xwidth w PyNone) (MoveStatus Ywidth h PyNone) /\
    firstn 2 (Eff.calls (Slits_.move slits0 calm (PyFloat Float.five) true
                           None PyNone))
    = [Move Xwidth w false PyNone; Move Ywidth h false PyNone] /\
    existsb is_wait (Eff.calls (Slits_.move slits0 calm (PyFloat Float.five)
                                  true None PyNone))
    = true.
Proof.
  apply (@move_returns_the_joint_status slits0 calm (PyFloat Float.five) true
           None PyNone).
  reflexivity.
Defined.

(** X14.  [set] only ever issues non-blocking axis moves with no timeout: it
    never waits, never stops an axis and never attaches a callback,
    whatever the collaborators do. *)
Theorem set_only_issues_moves (self : Slits) (W : world) (size : pyval) :
  forallb (fun c => match c with
                    | Move _ _ false PyNone => true
                    | _ => false
                    end)
    (Eff.calls (Slits_.set self W size)) = true /\
  List.length (Eff.calls (Slits_.set self W size)) <= 2.
Proof.
  unfold Slits_.set, Slits_.move, Positioner.move.
  destruct size as [| | |[|? [|? [|? ?]]]]; cbn;
    try (destruct (move_raises W Xwidth); cbn);
    try (destruct (move_raises W Ywidth); cbn);
    split; auto.
Qed.

(** ** Subscriptions on any device *)

Lemma do_subscribe_readback_subs (s : Slits) (c : subscribe_call)
    (ax : child) :
  readback_subs (Slits_.get_child (do_subscribe s c) ax)
  = readback_subs (Slits_.get_child s ax)
    ++ (if negb (_has_subscribed s)
           && (child_eqb ax Xwidth || child_eqb ax Ywidth)
        then [aperture_changed_cb] else []).
Proof.
  unfold do_subscribe, Slits_.subscribe, Slits_.super_subscribe.
  destruct (_has_subscribed s), (sc_run c), ax; cbn;
    rewrite ?app_nil_r; reflexivity.
Qed.

Lemma do_subscribe_flag (s : Slits) (c : subscribe_call) :
  _has_subscribed (do_subscribe s c) = true.
Proof.
  unfold do_subscribe, Slits_.subscribe, Slits_.super_subscribe.
  destruct (_has_subscribed s) eqn:E, (sc_run c); cbn; auto.
Qed.

(** X15.  On a device in any state, a run of [subscribe] calls adds the
    listener to each width readback at most once, and only if the flag was
    not yet set; listeners already there are kept, and the flag is set as
    soon as one call was made. *)
Theorem subscribe_adds_at_most_one_listener (s : Slits)
    (cs : list subscribe_call) (ax : child) :
  ax = Xwidth \/ ax = Ywidth ->
  readback_subs (Slits_.get_child (subscribe_all s cs) ax)
  = readback_subs (Slits_.get_child s ax)
    ++ (if negb (_has_subscribed s) && negb (Nat.eqb (List.length cs) 0)
        then [aperture_changed_cb] else []) /\
  _has_subscribed (subscribe_all s cs)
  = _has_subscribed s || negb (Nat.eqb (List.length cs) 0).
Proof.
  intros Hax.
  assert (Hw : child_eqb ax Xwidth || child_eqb ax Ywidth = true)
    by (destruct Hax as [-> | ->]; reflexivity).
  revert s; induction cs as [|c cs IH]; intros s.
  - cbn; rewrite andb_false_r, app_nil_r, orb_false_r; now split.
  - change (subscribe_all s (c :: cs))
      with (subscribe_all (do_subscribe s c) cs).
    destruct (IH (do_subscribe s c)) as [IHl IHf].
    rewrite IHl, IHf, do_subscribe_flag, do_subscribe_readback_subs, Hw.
    cbn [negb andb orb List.length Nat.eqb].
    rewrite andb_true_r, app_nil_r, orb_true_r. now split.
Qed.

Lemma subscribe_adds_at_most_one_listener_witness :
  let cs := [ {| sc_cb := "cb1"%string; sc_event_type := None;
                 sc_run := false |};
              {| sc_cb := "cb2"%string; sc_event_type := None;
                 sc_run := true |} ] in
  readback_subs (Slits_.get_child (subscribe_all slits0 cs) Ywidth)
  = [] ++ [aperture_changed_cb] /\
  _has_subscribed (subscribe_all slits0 cs) = false || true.
Proof.
  intros cs.
  apply (@subscribe_adds_at_most_one_listener slits0 cs Ywidth).
  right; reflexivity.
Defined.

(** X16.  [subscribe] never listens to the center readbacks: on a device
    whose center readback has no listener, after any run of [subscribe]
    calls a change of that readback invokes no callback and leaves the
    device as it is. *)
Theorem center_changes_are_not_reported (s : Slits)
    (cs : list subscribe_call) (ax : child) :
  ax = Xcenter \/ ax = Ycenter ->
  readback_subs (Slits_.get_child s ax) = [] ->
  Slits_.readback_changed ax (subscribe_all s cs) = subscribe_all s cs.
Proof.
  intros Hax.
  assert (Hw : child_eqb ax Xwidth || child_eqb ax Ywidth = false)
    by (destruct Hax as [-> | ->]; reflexivity).
  revert s; induction cs as [|c cs IH]; intros s He.
  - unfold Slits_.readback_changed; cbn [subscribe_all fold_left].
    now rewrite He.
  - change (subscribe_all s (c :: cs))
      with (subscribe_all (do_subscribe s c) cs).
    apply IH.
    rewrite do_subscribe_readback_subs, Hw, andb_false_r, app_nil_r.
    exact He.
Qed.

Lemma center_changes_are_not_reported_witness :
  let cs := [ {| sc_cb := "cb1"%string; sc_event_type := None;
                 sc_run := false |} ] in
  Slits_.readback_changed Xcenter (subscribe_all slits0 cs)
  = subscribe_all slits0 cs.
Proof.
  intros cs.
  apply (@center_changes_are_not_reported slits0 cs Xcenter).
  - left; reflexivity.
  - reflexivity.
Defined.

(** ** The keywords of the re-dispatched event *)

Lemma kw_get_pop_other (key k : string) (kw : kwargs) :
  k <> key -> kw_get k (kw_pop key kw) = kw_get k kw.
Proof.
  unfold kw_pop.
  intros Hne; induction kw as [|[k' v] kw IH]; cbn; [reflexivity|].
  destruct (String.eqb k' key) eqn:E; cbn.
  - apply String.eqb_eq in E; subst k'.
    destruct (String.eqb key k) eqn:E'; [|exact IH].
    apply String.eqb_eq in E'; congruence.
  - now rewrite IH.
Qed.

Lemma kw_get_pop_same (key : string) (kw : kwargs) :
  kw_get key (kw_pop key kw) = None.
Proof.
  unfold kw_pop.
  induction kw as [|[k' v] kw IH]; cbn; [reflexivity|].
  destruct (String.eqb k' key) eqn:E; cbn; [exact IH|].
  now rewrite E.
Qed.

Lemma kw_get_none_find (kw : kwargs) :
  kw_get "sub_type" kw = None -> kw_get "obj" kw = None ->
  find (fun kv => existsb (String.eqb (fst kv))
                    (map fst [("sub_type"%string, KwStr SUB_STATE);
                              ("obj"%string, KwSelf)])) kw = None.
Proof.
  induction kw as [|[k v] kw IH]; cbn [kw_get find map fst existsb];
    [reflexivity|].
  destruct (String.eqb k "sub_type"); [discriminate|].
  destruct (String.eqb k "obj"); [discriminate|].
  exact IH.
Qed.

Lemma kw_pop_keys (key k : string) (kw : kwargs) :
  In k (map fst (kw_pop key kw)) -> In k (map fst kw) /\ k <> key.
Proof.
  unfold kw_pop.
  induction kw as [|[k' v] kw IH]; cbn; [tauto|].
  destruct (String.eqb k' key) eqn:E; cbn.
  - intros H; destruct (IH H); tauto.
  - intros [<-|H].
    + split; [now left|]. intros ->. now rewrite String.eqb_refl in E.
    + destruct (IH H); tauto.
Qed.

Lemma kw_pop_NoDup (key : string) (kw : kwargs) :
  NoDup (map fst kw) -> NoDup (map fst (kw_pop key kw)).
Proof.
  induction kw as [|[k' v] kw IH]; cbn; [auto|].
  fold (kw_pop key kw).
  intros Hnd; inversion Hnd as [|? ? Hnin Hnd']; subst.
  destruct (String.eqb k' key); cbn; [auto|].
  constructor; [|auto].
  intros Hin; apply kw_pop_keys in Hin; tauto.
Qed.

(** X17.  Whatever keywords the signal passes, the re-dispatch by
    [_aperture_changed] never repeats a keyword: the callee receives
    [sub_type] set to [SUB_STATE] and [obj] set to the device, whatever they
    were before, every other keyword with its value unchanged, and no key
    twice. *)
Theorem aperture_changed_keywords_are_normalised (kw : kwargs) :
  exists out,
    _aperture_changed_keywords kw = inr out /\
    kw_get "sub_type" out = Some (KwStr SUB_STATE) /\
    kw_get "obj" out = Some KwSelf /\
    (forall k, k <> "sub_type"%string -> k <> "obj"%string ->
               kw_get k out = kw_get k kw) /\
    (NoDup (map fst kw) -> NoDup (map fst out)).
Proof.
  unfold _aperture_changed_keywords, call_with_keywords.
  set (kw' := kw_pop "obj" (kw_pop "sub_type" kw)).
  assert (Hs : kw_get "sub_type" kw' = None).
  { subst kw'; rewrite kw_get_pop_other by discriminate.
    apply kw_get_pop_same. }
  assert (Ho : kw_get "obj" kw' = None) by apply kw_get_pop_same.
  rewrite (kw_get_none_find kw' Hs Ho).
  eexists; split; [reflexivity|].
  split; [reflexivity|]. split; [reflexivity|]. split.
  - intros k Hk1 Hk2. cbn [app kw_get].
    destruct (String.eqb "sub_type" k) eqn:E1;
      [apply String.eqb_eq in E1; congruence|].
    destruct (String.eqb "obj" k) eqn:E2;
      [apply String.eqb_eq in E2; congruence|].
    subst kw'; now rewrite !kw_get_pop_other.
  - intros Hnd. cbn [app map fst].
    assert (Hnd' : NoDup (map fst kw'))
      by (subst kw'; now apply kw_pop_NoDup, kw_pop_NoDup).
    constructor; [|constructor; [|exact Hnd']].
    + intros [H|H]; [discriminate H|].
      subst kw'; apply kw_pop_keys in H; destruct H as [H _].
      apply kw_pop_keys in H; tauto.
    + intros H; subst kw'; apply kw_pop_keys in H; tauto.
Qed.

Example aperture_changed_keywords_of_a_readback_event :
  _aperture_changed_keywords
    [("value"%string, KwFloat Float.two);
     ("sub_type"%string, KwStr "value");
     ("obj"%string, KwReadback Xwidth);
     ("old_value"%string, KwFloat Float.one)]
  = inr [("sub_type"%string, KwStr SUB_STATE); ("obj"%string, KwSelf);
         ("value"%string, KwFloat Float.two);
         ("old_value"%string, KwFloat Float.one)].
Proof. reflexivity. Qed.

(** ** Staging *)

Lemma signal_eqb_eq (a b : signal) : signal_eqb a b = true <-> a = b.
Proof.
  destruct a as [x|x], b as [y|y]; cbn; rewrite ?child_eqb_eq;
    split; congruence.
Qed.

Lemma signal_eqb_refl (a : signal) : signal_eqb a a = true.
Proof. now apply signal_eqb_eq. Qed.

Lemma dict_get_set_same (k : signal) (v : float) (d : original_vals) :
  dict_get k (dict_set k v d) = Some v.
Proof.
  induction d as [|[k' v'] d IH]; cbn.
  - now rewrite signal_eqb_refl.
  - destruct (signal_eqb k' k) eqn:E; cbn; now rewrite E.
Qed.

Lemma dict_get_set_other (k k' : signal) (v : float) (d : original_vals) :
  k <> k' -> dict_get k' (dict_set k v d) = dict_get k' d.
Proof.
  intros Hne; induction d as [|[k0 v0] d IH]; cbn.
  - destruct (signal_eqb k k') eqn:E; [|reflexivity].
    apply signal_eqb_eq in E; contradiction.
  - destruct (signal_eqb k0 k) eqn:E; cbn.
    + apply signal_eqb_eq in E; subst k0.
      destruct (signal_eqb k k') eqn:E'; [|reflexivity].
      apply signal_eqb_eq in E'; contradiction.
    + now rewrite IH.
Qed.

Lemma dict_set_same_value (k : signal) (v : float) (d : original_vals) :
  dict_get k d = Some v -> dict_set k v d = d.
Proof.
  induction d as [|[k0 v0] d IH]; cbn; [discriminate|].
  destruct (signal_eqb k0 k) eqn:E.
  - intros H; injection H as ->. reflexivity.
  - intros H; now rewrite IH.
Qed.

(** X18.  [stage] saves the [xwidth] readback under the [xwidth] setpoint
    and the [ywidth] readback under the [ywidth] setpoint, replacing what
    was saved for them, and leaves every other saved entry (the centers
    among them) as it was. *)
Theorem stage_saves_both_widths (self : Slits) (d : original_vals) :
  dict_get (Setpoint Xwidth) (stage self d)
  = Some (readback_value (xwidth self)) /\
  dict_get (Setpoint Ywidth) (stage self d)
  = Some (readback_value (ywidth self)) /\
  forall k, k <> Setpoint Xwidth -> k <> Setpoint Ywidth ->
            dict_get k (stage self d) = dict_get k d.
Proof.
  unfold stage; repeat split.
  - rewrite dict_get_set_other by discriminate. apply dict_get_set_same.
  - apply dict_get_set_same.
  - intros k Hx Hy. rewrite !dict_get_set_other by congruence. reflexivity.
Qed.

(** X19.  Staging again while the readbacks are unchanged saves nothing
    new: the saved values after two [stage] calls are those after one. *)
Theorem stage_twice_is_stage_once (self : Slits) (d : original_vals) :
  stage self (stage self d) = stage self d.
Proof.
  assert (Hx : dict_get (Setpoint Xwidth) (stage self d)
               = Some (readback_value (xwidth self))).
  { unfold stage; rewrite dict_get_set_other by discriminate.
    apply dict_get_set_same. }
  assert (Hy : dict_get (Setpoint Ywidth) (stage self d)
               = Some (readback_value (ywidth self)))
    by apply dict_get_set_same.
  unfold stage at 1.
  rewrite (dict_set_same_value _ _ Hx).
  now rewrite (dict_set_same_value _ _ Hy).
Qed.

(** ** Addresses *)

Lemma append_inj_l (pre a b : string) :
  (pre ++ a)%string = (pre ++ b)%string -> a = b.
Proof.
  induction pre as [|c pre IH]; cbn; [auto|].
  intros H; injection H as H; auto.
Qed.

Lemma NoDup_map_append (pre : string) (l : list string) :
  NoDup l -> NoDup (map (String.append pre) l).
Proof.
  induction 1 as [|a l Hnin Hnd IH]; cbn; constructor; [|exact IH].
  intros Hin; apply in_map_iff in Hin; destruct Hin as (b & Hb & Hin).
  apply append_inj_l in Hb; subst b; contradiction.
Qed.

(** The suffixes behind the prefix, in the order of [device_addresses]. *)
Lemma device_addresses_suffixes (pre : string) (nominal cur : float * float) :
  device_addresses (Slits_.__init__ pre nominal cur) pre
  = map (String.append pre)
      [":XCEN_REQ"; ":XWID_REQ"; ":YCEN_REQ"; ":YWID_REQ";
       ":ACTUAL_XCENTER"; ":ACTUAL_XWIDTH"; ":ACTUAL_YCENTER";
       ":ACTUAL_YWIDTH"; ":BLOCKED"; ":OPEN"; ":CLOSE"; ":BLOCK"]%string.
Proof. reflexivity. Qed.

Lemma suffixes_distinct :
  NoDup [":XCEN_REQ"; ":XWID_REQ"; ":YCEN_REQ"; ":YWID_REQ";
         ":ACTUAL_XCENTER"; ":ACTUAL_XWIDTH"; ":ACTUAL_YCENTER";
         ":ACTUAL_YWIDTH"; ":BLOCKED"; ":OPEN"; ":CLOSE"; ":BLOCK";
         ":DMOV"]%string.
Proof.
  repeat (constructor;
          [cbn; intros H;
           repeat (destruct H as [H|H]; [discriminate H|]); exact H|]).
  constructor.
Qed.

(** X20.  For any prefix, the setpoint and readback addresses of the four
    positioners and the four signals of the device itself are twelve
    different addresses: cutting the tag to four characters makes no two
    setpoints collide, and no command writes to an axis. *)
Theorem device_addresses_are_distinct (pre : string)
    (nominal cur : float * float) :
  NoDup (device_addresses (Slits_.__init__ pre nominal cur) pre) /\
  List.length (device_addresses (Slits_.__init__ pre nominal cur) pre) = 12.
Proof.
  split; [|reflexivity].
  rewrite device_addresses_suffixes.
  apply NoDup_map_append.
  pose proof suffixes_distinct as H.
  apply (NoDup_remove_1
           [":XCEN_REQ"; ":XWID_REQ"; ":YCEN_REQ"; ":YWID_REQ";
            ":ACTUAL_XCENTER"; ":ACTUAL_XWIDTH"; ":ACTUAL_YCENTER";
            ":ACTUAL_YWIDTH"; ":BLOCKED"; ":OPEN"; ":CLOSE"; ":BLOCK"]%string
           [] ":DMOV"%string) in H.
  now rewrite app_nil_r in H.
Qed.

(** X21.  The four positioners of one device share a single done flag: each
    has [done] at the prefix followed by [:DMOV], and that address is none
    of the setpoint, readback or command addresses. *)
Theorem done_flag_is_shared (pre : string) (nominal cur : float * float)
    (ax : child) :
  let s := Slits_.__init__ pre nominal cur in
  SlitPositioner_.done_pv (Slits_.get_child s ax) = (pre ++ ":DMOV")%string /\
  ~ In (pre ++ ":DMOV")%string (device_addresses s pre).
Proof.
  intros s; split; [now destruct ax|].
  subst s; rewrite device_addresses_suffixes.
  intros Hin; apply in_map_iff in Hin; destruct Hin as (b & Hb & Hin).
  apply append_inj_l in Hb; subst b.
  cbn in Hin.
  repeat (destruct Hin as [Hin|Hin]; [discriminate Hin|]); exact Hin.
Qed.

(** X22.  Each of [_setup_move] (on any of the four positioners) and
    [open], [close], [block] makes exactly one write; [_setup_move] writes
    the requested position, non-blocking, to the setpoint of its own
    positioner, the commands write [1]; and the seven writes go to seven
    different addresses. *)
Theorem writes_go_to_distinct_addresses (pre : string)
    (nominal cur : float * float) (pos : pyval) :
  let s := Slits_.__init__ pre nominal cur in
  let axis_writes :=
    map (fun ax => _setup_move (Slits_.get_child s ax) pos)
      [Xcenter; Xwidth; Ycenter; Ywidth] in
  let command_writes :=
    [SlitsCommands.open pre; SlitsCommands.close pre;
     SlitsCommands.block pre] in
  Forall (fun w => exists p, w = [p] /\ put_value p = pos /\
                             put_wait p = Some false) axis_writes /\
  Forall (fun w => exists p, w = [p] /\ put_value p = PyInt 1 /\
                             put_wait p = None) command_writes /\
  (forall ax p, In p (_setup_move (Slits_.get_child s ax) pos) ->
                put_pv p = SlitPositioner_.setpoint_pv (Slits_.get_child s ax)) /\
  NoDup (map put_pv (List.concat (app axis_writes command_writes))).
Proof.
  intros s axis_writes command_writes.
  split; [repeat constructor; eexists; repeat split|].
  split; [repeat constructor; eexists; repeat split|].
  split.
  - intros ax p [<-|[]]; reflexivity.
  - change (map put_pv (List.concat (app axis_writes command_writes)))
      with (map (String.append pre)
              [":XCEN_REQ"; ":XWID_REQ"; ":YCEN_REQ"; ":YWID_REQ";
               ":OPEN"; ":CLOSE"; ":BLOCK"]%string).
    apply NoDup_map_append.
    repeat (constructor;
            [cbn; intros Hin;
             repeat (destruct Hin as [Hin|Hin]; [discriminate Hin|]);
             exact Hin|]).
    constructor.
Qed.

(** ** The short form of any tag *)

(** X23.  For any tag, of any length, [_dirshort] is the tag cut after its
    first four characters: a prefix of the tag of length [min 4 (len tag)],
    so a tag of at most four characters (the empty default among them) is
    kept whole, while [_dirlong] is always the whole tag. *)
Theorem dirshort_is_the_four_character_prefix (pre tag : string)
    (pos : float) :
  let p := SlitPositioner_.__init__ pre tag pos in
  (exists rest, tag = (_dirshort p ++ rest)%string) /\
  String.length (_dirshort p) = Nat.min 4 (String.length tag) /\
  (String.length tag <= 4 -> _dirshort p = tag) /\
  _dirlong p = tag.
Proof.
  cbn [SlitPositioner_.__init__ _dirshort _dirlong]; unfold slice_to_4.
  destruct tag as [|a [|b [|c [|d [|e rest]]]]]; cbn;
    (split; [eexists; cbn; reflexivity|]);
    (split; [reflexivity|]);
    (split; [|reflexivity]);
    intros H; try reflexivity.
  lia.
Qed.

Example setpoint_of_default_slit_type :
  SlitPositioner_.setpoint_pv (SlitPositioner_.__init__ "MFX:DG2" "" Float.zero)
  = "MFX:DG2:_REQ"%string.
Proof. reflexivity. Qed.
